(** * Blue/green migration splitting: a shallow embedding of the [bluegreen] package

    The development follows the package layout:
    - [utils.py], [constants.py], [exceptions.py], [fields.py];
    - [sql/builder.py] and [sql/validators.py];
    - [operations/base.py], [operations/strategies.py], [operations/splitter.py];
    - [processors/migration_processor.py] and [processors/plan_filter.py].

    Python strings are modelled as Rocq strings (sequences of bytes), tuples that
    may hold [None] as lists of options, dictionaries and sets as stdpp's [gmap]
    and [gset], exceptions as the error side of a result type, and the mutable
    fields of objects by explicit state passing. *)

From Stdlib Require Import Strings.String Strings.Ascii.
From Stdlib Require Import Numbers.DecimalString.
From stdpp Require Import gmap strings sorting.

Local Open Scope stdpp_scope.

(** ** Strings as Python uses them *)

Module Str.

(** [s.endswith(suffix)] for one suffix: the last [len(suffix)] characters of
    [s] are [suffix]. *)
Definition endswith (s suffix : string) : bool :=
  let n := String.length s in
  let m := String.length suffix in
  Nat.leb m n && String.eqb (String.substring (n - m) m s) suffix.

(** [s.endswith((a, b))]: ends with one of the two. *)
Definition endswith2 (s a b : string) : bool :=
  endswith s a || endswith s b.

(** [c.lower()] on a byte: only the letters A..Z change. Names are byte
    strings here, so [lower] agrees with Python's [str.lower] on ASCII names
    and leaves the bytes of any other letter as they are. *)
Definition ascii_lower (c : ascii) : ascii :=
  let n := nat_of_ascii c in
  if Nat.leb 65 n && Nat.leb n 90 then ascii_of_nat (n + 32) else c.

Fixpoint lower (s : string) : string :=
  match s with
  | EmptyString => EmptyString
  | String c r => String (ascii_lower c) (lower r)
  end.

(** [sep.join(parts)]. *)
Definition join (sep : string) (parts : list string) : string :=
  String.concat sep parts.

(** [str(n)] for a non-negative integer. *)
Definition of_nat (n : nat) : string :=
  NilEmpty.string_of_uint (Nat.to_uint n).

(** Truth value of a string: the empty string is false. *)
Definition truthy (s : string) : bool :=
  negb (String.eqb s EmptyString).

End Str.

(** ** Results of calls that may raise *)

Inductive result (E A : Type) : Type :=
| Ok (a : A)
| Raise (e : E).

Arguments Ok {E A} a.
Arguments Raise {E A} e.

(** Sequencing stops at the first exception, as Python does. *)
Global Instance result_bind {E : Type} : MBind (result E) :=
fun A B k r =>
  match r with
  | Ok a => k a
  | Raise e => Raise e
  end.

(** ** constants.py *)

Definition BLUE_SUFFIX : string := "_blue".
Definition GREEN_SUFFIX : string := "_green".

Definition MSG_MODEL_NOT_FOUND (model app : string) : string :=
"Model '" +:+ model +:+ "' not found in app '" +:+ app +:+ "'".
Definition MSG_FIELD_NOT_FOUND (field model : string) : string :=
"Field '" +:+ field +:+ "' not found in model '" +:+ model +:+ "'".
Definition MSG_INDEX_NOT_FOUND (index model : string) : string :=
"Index '" +:+ index +:+ "' not found in model '" +:+ model +:+ "'".

(** ** The host's model layer, as far as the package reads it *)

Module Field.
(** A model field: its attribute [name], its database [column] and the rest
    of its definition. [clone] builds an equal field. *)
Record t : Type := mk { name : string; column : string; definition : string }.
Definition clone (f : t) : t :=
  {| name := name f; column := column f; definition := definition f |}.
End Field.

Module Index.
Record t : Type := mk { name : string; fields : list string }.
Definition clone (i : t) : t := {| name := name i; fields := fields i |}.
End Index.

Module Model.
(** A model class: [__name__] and the parts of [_meta] the package reads. *)
Record t : Type := mk {
  __name__ : string;
  app_label : string;
  db_table : string;
  fields : list Field.t;
  indexes : list Index.t
}.
End Model.

Module AppConfig.
(** An installed application: its directory and its models, keyed by the
    lower-cased model name as in the host's registry. *)
Record t : Type := mk {
  path : string;
  models : gmap string Model.t
}.
End AppConfig.

(** ** Migration operations

    One constructor per operation class the package distinguishes. The three
    [...Patched] classes of [fields.py] are subclasses of the host's
    [CreateModel], [AddField] and [AddIndex]; [OtherOperation] stands for any
    operation class the package does not name and that derives from none of
    the named ones (for instance [RunPython]).

    A [RenameIndex] names the old index by [old_name] or, for an index that
    never had a declared name, by [old_fields]; the host requires exactly one
    of the two, and the attribute that was not given is [None]. The package
    passes [old_name] on as it is, so the name of a [RemoveIndex] and the old
    name of an [AddIndexPatched] can be [None] as well. *)

Inductive Operation : Type :=
| CreateModel (name : string) (fields : list (string * Field.t))
| DeleteModel (name : string)
| RenameModel (old_name new_name : string)
| AddField (model_name name : string) (field : Field.t) (preserve_default : bool)
| RemoveField (model_name name : string)
| RenameField (model_name old_name new_name : string)
| AddIndex (model_name : string) (index : Index.t)
| RemoveIndex (model_name : string) (name : option string)
| RenameIndex (model_name new_name : string) (old_name : option string)
    (old_fields : option (list string))
| AddConstraint (model_name constraint : string)
| RemoveConstraint (model_name name : string)
| AlterModelTable (name table : string)
| AlterUniqueTogether (name : string) (unique_together : list (list string))
| AlterIndexTogether (name : string) (index_together : list (list string))
| AlterModelOptions (name options : string)
| AlterField (model_name name : string) (field : Field.t)
| AlterOrderWithRespectTo (name order_with_respect_to : string)
| AlterModelManagers (name managers : string)
| CreateModelPatched (name : string) (fields : list (string * Field.t)) (old_name : string)
| AddFieldPatched (model_name name : string) (field : Field.t) (old_name : string)
    (preserve_default : bool)
| AddIndexPatched (model_name : string) (index : Index.t) (old_name : option string)
| RunSQL (sql reverse_sql : string)
| OtherOperation (class_name description : string).

(** [RunSQL.noop]. *)
Definition RunSQL_noop : string := EmptyString.

(** [operation.old_name_lower] of a [RenameModel]. *)
Definition old_name_lower (old_name : string) : string := Str.lower old_name.

(** The classes, for [type(op)] and [isinstance]. *)
Inductive OperationClass : Type :=
| CreateModel_cls | DeleteModel_cls | RenameModel_cls
| AddField_cls | RemoveField_cls | RenameField_cls
| AddIndex_cls | RemoveIndex_cls | RenameIndex_cls
| AddConstraint_cls | RemoveConstraint_cls
| AlterModelTable_cls | AlterUniqueTogether_cls | AlterIndexTogether_cls
| AlterModelOptions_cls | AlterField_cls | AlterOrderWithRespectTo_cls
| AlterModelManagers_cls
| CreateModelPatched_cls | AddFieldPatched_cls | AddIndexPatched_cls
| RunSQL_cls
| Other_cls (class_name : string).

Global Instance OperationClass_eq_dec : EqDecision OperationClass.
Proof. solve_decision. Defined.

(** [type(op)]. *)
Definition type_of (op : Operation) : OperationClass :=
  match op with
  | CreateModel _ _ => CreateModel_cls
  | DeleteModel _ => DeleteModel_cls
  | RenameModel _ _ => RenameModel_cls
  | AddField _ _ _ _ => AddField_cls
  | RemoveField _ _ => RemoveField_cls
  | RenameField _ _ _ => RenameField_cls
  | AddIndex _ _ => AddIndex_cls
  | RemoveIndex _ _ => RemoveIndex_cls
  | RenameIndex _ _ _ _ => RenameIndex_cls
  | AddConstraint _ _ => AddConstraint_cls
  | RemoveConstraint _ _ => RemoveConstraint_cls
  | AlterModelTable _ _ => AlterModelTable_cls
  | AlterUniqueTogether _ _ => AlterUniqueTogether_cls
  | AlterIndexTogether _ _ => AlterIndexTogether_cls
  | AlterModelOptions _ _ => AlterModelOptions_cls
  | AlterField _ _ _ => AlterField_cls
  | AlterOrderWithRespectTo _ _ => AlterOrderWithRespectTo_cls
  | AlterModelManagers _ _ => AlterModelManagers_cls
  | CreateModelPatched _ _ _ => CreateModelPatched_cls
  | AddFieldPatched _ _ _ _ _ => AddFieldPatched_cls
  | AddIndexPatched _ _ _ => AddIndexPatched_cls
  | RunSQL _ _ => RunSQL_cls
  | OtherOperation c _ => Other_cls c
  end.

(** The direct superclass among the classes above, if any ([fields.py]): the
    three patched classes are the only subclasses the package declares. *)
Definition base_class (c : OperationClass) : option OperationClass :=
  match c with
  | CreateModelPatched_cls => Some CreateModel_cls
  | AddFieldPatched_cls => Some AddField_cls
  | AddIndexPatched_cls => Some AddIndex_cls
  | _ => None
  end.

(** [isinstance(op, cls)]: the class of [op] is [cls] or derives from it. *)
Definition isinstance (op : Operation) (cls : OperationClass) : bool :=
  bool_decide (type_of op = cls) || bool_decide (base_class (type_of op) = Some cls).

(** [isinstance(op, (c1, c2, ...))]. *)
Definition isinstance_any (op : Operation) (classes : list OperationClass) : bool :=
  existsb (isinstance op) classes.

(** [IMPOSSIBLE_OPERATIONS], a frozenset of classes. *)
Definition IMPOSSIBLE_OPERATIONS : list OperationClass :=
  [ AlterModelTable_cls; AlterUniqueTogether_cls; AlterIndexTogether_cls;
    AlterModelOptions_cls; AlterField_cls; AlterOrderWithRespectTo_cls;
    AlterModelManagers_cls ].

(** [type(op) in IMPOSSIBLE_OPERATIONS]. *)
Definition is_impossible (op : Operation) : bool :=
  bool_decide (type_of op ∈ IMPOSSIBLE_OPERATIONS).

(** ** exceptions.py *)

Inductive BlueGreenMigrationError : Type :=
| ImpossibleOperationError (operations : list Operation)
| SchemaValidationError (message : string)
| ModelNotFoundError (message : string)
| FieldNotFoundError (message : string)
| IndexNotFoundError (message : string)
| SQLExecutionError (message : string).

Abbreviation raising := (result BlueGreenMigrationError).

(** ** fields.py: the constructors of the patched operations *)

(** [CreateModelPatched.__init__]: the model's fields become
    [(field.name, field)] pairs. *)
Definition CreateModelPatched_init (name : string) (fields : list Field.t)
    (old_name : string) : Operation :=
  CreateModelPatched name (map (fun x => (Field.name x, x)) fields) old_name.

Definition AddFieldPatched_init (model_name name : string) (field : Field.t)
    (old_name : string) (preserve_default : bool) : Operation :=
  AddFieldPatched model_name name field old_name preserve_default.

Definition AddIndexPatched_init (model_name : string) (index : Index.t)
    (old_name : option string) : Operation :=
  AddIndexPatched model_name index old_name.

(** A value in the keyword arguments of a deconstructed operation. *)
Inductive Value : Type :=
| VString (s : string)
| VBool (b : bool)
| VField (f : Field.t).

(** [AddFieldPatched.deconstruct]: the class name, no positional arguments
    and the keyword arguments, in insertion order. *)
Definition AddFieldPatched_deconstruct (model_name name : string) (field : Field.t)
    (old_name : string) (preserve_default : bool)
    : string * list Value * list (string * Value) :=
  let kwargs :=
    [ ("model_name", VString model_name); ("name", VString name);
      ("field", VField field); ("old_name", VString old_name) ] in
  let kwargs :=
    if negb preserve_default
    then kwargs ++ [("preserve_default", VBool preserve_default)]
    else kwargs in
  ("AddFieldPatched", [], kwargs).

(** The value bound to a keyword, if any. *)
Definition kwarg (kwargs : list (string * Value)) (key : string) : option Value :=
  snd <$> find (fun item => String.eqb (fst item) key) kwargs.

(** The keyword call of [AddFieldPatched] that a written migration makes when
    it is loaded: the four required keywords and the optional [preserve_default],
    which [__init__] defaults to [False]. [None] stands for a call that fails
    on a missing keyword or that passes a value of another type. *)
Definition AddFieldPatched_call (kwargs : list (string * Value)) : option Operation :=
  match kwarg kwargs "model_name", kwarg kwargs "name",
        kwarg kwargs "field", kwarg kwargs "old_name" with
  | Some (VString model_name), Some (VString name),
    Some (VField field), Some (VString old_name) =>
      match kwarg kwargs "preserve_default" with
      | None => Some (AddFieldPatched_init model_name name field old_name false)
      | Some (VBool preserve_default) =>
          Some (AddFieldPatched_init model_name name field old_name preserve_default)
      | Some _ => None
      end
  | _, _, _, _ => None
  end.

(** ** The host's database connection

    [connection.ops.quote_name] belongs to the host framework's database
    backend; the package only calls it, so it is a parameter here. *)

Record DatabaseOperations : Type := { quote_name : string -> string }.
Record Connection : Type := { ops : DatabaseOperations }.

(** A phase of a split: a Python tuple whose items are operations or [None]. *)
Abbreviation phase := (list (option Operation)).

(** ** operations/base.py: the strategy interface *)

Record OperationStrategy : Type := {
  can_handle : Operation -> bool;
  split : Operation -> string -> raising (phase * phase)
}.

(** ** utils.py

    The package reads two module-level globals of the host: the application
    registry [django.apps.apps] and the default [django.db.connection]. They
    are section variables wherever they are used. *)

Section utils.

Variable apps : gmap string AppConfig.t.
Variable connection : Connection.

Definition get_model_safely (app_label model_name : string) : raising Model.t :=
  match apps !! app_label with
  | None => Raise (ModelNotFoundError (MSG_MODEL_NOT_FOUND model_name app_label))
  | Some app_config =>
      match AppConfig.models app_config !! Str.lower model_name with
      | None => Raise (ModelNotFoundError (MSG_MODEL_NOT_FOUND model_name app_label))
      | Some model => Ok model
      end
  end.

Definition get_field_by_name (model : Model.t) (field_name : string) : raising Field.t :=
  match filter (fun f => Field.name f = field_name) (Model.fields model) with
  | [] => Raise (FieldNotFoundError (MSG_FIELD_NOT_FOUND field_name (Model.__name__ model)))
  | f :: _ => Ok f
  end.

Definition get_index_by_name (model : Model.t) (index_name : string) : raising Index.t :=
  match filter (fun idx => Index.name idx = index_name) (Model.indexes model) with
  | [] => Raise (IndexNotFoundError (MSG_INDEX_NOT_FOUND index_name (Model.__name__ model)))
  | idx :: _ => Ok idx
  end.

Definition quote_identifier (identifier : string) : string :=
  quote_name (ops connection) identifier.

(** [quote_identifiers]: every argument quoted, in order; the tuple is a list. *)
Definition quote_identifiers (identifiers : list string) : list string :=
  map quote_identifier identifiers.

End utils.

(** ** sql/builder.py *)

Module SQLBuilder.

Section with_connection.

Variable connection : Connection.

(** [reverse_sql or RunSQL.noop]. *)
Definition reverse_or_noop (reverse_sql : option string) : string :=
  match reverse_sql with
  | Some r => if Str.truthy r then r else RunSQL_noop
  | None => RunSQL_noop
  end.

Definition build_insert_select (source_table target_table : string)
    (columns : list string) (reverse_sql : option string) : Operation :=
  let source_quoted := quote_identifier connection source_table in
  let target_quoted := quote_identifier connection target_table in
  let columns_quoted := map (quote_identifier connection) columns in
  let columns_list := Str.join ", " columns_quoted in
  let sql :=
    ("INSERT INTO " +:+ source_quoted +:+ " (" +:+ columns_list +:+ ") ")
    +:+ ("SELECT " +:+ columns_list +:+ " FROM " +:+ target_quoted) in
  RunSQL sql (reverse_or_noop reverse_sql).

Definition build_update_field_copy (table new_column old_column : string)
    (where_clause reverse_sql : option string) : Operation :=
  let table_quoted := quote_identifier connection table in
  let new_col_quoted := quote_identifier connection new_column in
  let old_col_quoted := quote_identifier connection old_column in
  let sql := "UPDATE " +:+ table_quoted +:+ " SET " +:+ new_col_quoted
             +:+ " = " +:+ old_col_quoted in
  let sql :=
    match where_clause with
    | Some w => if Str.truthy w then sql +:+ (" WHERE " +:+ w) else sql
    | None => sql
    end in
  RunSQL sql (reverse_or_noop reverse_sql).

Definition build_column_list_from_model (model : Model.t) : list string :=
  map Field.column (Model.fields model).

Definition build_quoted_column_list (columns : list string) : string :=
  Str.join ", " (map (quote_identifier connection) columns).

Definition build_table_name (app_label model_name : string) : string :=
  app_label +:+ "_" +:+ Str.lower model_name.

End with_connection.

End SQLBuilder.

(** ** sql/validators.py *)

Module SQLValidator.

(** [{field.column for field in model._meta.fields}]. *)
Definition column_set (model : Model.t) : gset string :=
  list_to_set (map Field.column (Model.fields model)).

(** [sorted(list(common))]: strings in lexicographic order. *)
Definition sorted (columns : gset string) : list string :=
  merge_sort String.le (elements columns).

Definition get_common_columns (model_from model_to : Model.t) : list string :=
  let columns_from := column_set model_from in
  let columns_to := column_set model_to in
  let common := columns_from ∩ columns_to in
  sorted common.

Definition validate_schema_compatibility (source_columns target_columns : list string)
    (strict : bool) : bool * list string :=
  let errors := [] in
  let source_set : gset string := list_to_set source_columns in
  let target_set : gset string := list_to_set target_columns in
  let missing_in_target := source_set ∖ target_set in
  let errors :=
    if bool_decide (missing_in_target = ∅) then errors
    else errors ++ ["Columns missing in target table: "
                    +:+ Str.join ", " (sorted missing_in_target)] in
  let errors :=
    if strict then
      let missing_in_source := target_set ∖ source_set in
      if bool_decide (missing_in_source = ∅) then errors
      else errors ++ ["Columns missing in source table: "
                      +:+ Str.join ", " (sorted missing_in_source)]
    else errors in
  (bool_decide (length errors = 0), errors).

Definition validate_column_list (model : Model.t) (columns : list string)
    : bool * list string :=
  let model_columns := column_set model in
  let columns_set : gset string := list_to_set columns in
  let missing := columns_set ∖ model_columns in
  (bool_decide (size missing = 0), sorted missing).

Definition get_column_order (model : Model.t) : list string :=
  map Field.column (Model.fields model).

Definition check_safe_for_insert_select (source_model target_model : Model.t)
    : raising unit :=
  let common := get_common_columns source_model target_model in
  if bool_decide (common = []) then
    Raise (SchemaValidationError
             ("No common columns between " +:+ Model.__name__ source_model
              +:+ " and " +:+ Model.__name__ target_model))
  else if Nat.ltb (length common) 1 then
    Raise (SchemaValidationError
             ("Insufficient common columns between " +:+ Model.__name__ source_model
              +:+ " and " +:+ Model.__name__ target_model +:+ ": "
              +:+ Str.of_nat (length common)))
  else Ok tt.

End SQLValidator.

(** ** operations/strategies.py *)

Section strategies.

Variable apps : gmap string AppConfig.t.
Variable connection : Connection.

Definition ModelStrategy_can_handle (operation : Operation) : bool :=
  isinstance_any operation [CreateModel_cls; DeleteModel_cls; RenameModel_cls].

Definition ModelStrategy_split (operation : Operation) (app_label : string)
    : raising (phase * phase) :=
  if isinstance operation CreateModel_cls then Ok ([Some operation], [None])
  else if isinstance operation DeleteModel_cls then Ok ([None], [Some operation])
  else
    match operation with
    | RenameModel old_name new_name =>
        model ← get_model_safely apps app_label new_name;
        let add_operation :=
          CreateModelPatched_init (Model.__name__ model) (Model.fields model) old_name in
        let drop_operation := DeleteModel old_name in
        let old_table := Model.app_label model +:+ "_" +:+ old_name_lower old_name in
        let columns := SQLBuilder.build_column_list_from_model model in
        let run_sql :=
          SQLBuilder.build_insert_select connection
            old_table (Model.db_table model) columns None in
        Ok ([Some add_operation; Some run_sql], [Some drop_operation])
    | _ => Ok ([Some operation], [None])
    end.

Definition ModelStrategy : OperationStrategy :=
  {| can_handle := ModelStrategy_can_handle; split := ModelStrategy_split |}.

Definition FieldStrategy_can_handle (operation : Operation) : bool :=
  isinstance_any operation [AddField_cls; RemoveField_cls; RenameField_cls].

Definition FieldStrategy_split (operation : Operation) (app_label : string)
    : raising (phase * phase) :=
  if isinstance operation AddField_cls then Ok ([Some operation], [None])
  else if isinstance operation RemoveField_cls then Ok ([None], [Some operation])
  else
    match operation with
    | RenameField model_name old_name new_name =>
        model ← get_model_safely apps app_label model_name;
        field ← get_field_by_name model new_name;
        let add_operation :=
          AddFieldPatched_init (Str.lower (Model.__name__ model)) new_name
            (Field.clone field) old_name true in
        let drop_operation := RemoveField (Str.lower (Model.__name__ model)) old_name in
        let run_sql :=
          SQLBuilder.build_update_field_copy connection
            (Model.db_table model) new_name old_name None None in
        Ok ([Some add_operation; Some run_sql], [Some drop_operation])
    | _ => Ok ([Some operation], [None])
    end.

Definition FieldStrategy : OperationStrategy :=
  {| can_handle := FieldStrategy_can_handle; split := FieldStrategy_split |}.

Definition IndexStrategy_can_handle (operation : Operation) : bool :=
  isinstance_any operation [AddIndex_cls; RemoveIndex_cls; RenameIndex_cls].

Definition IndexStrategy_split (operation : Operation) (app_label : string)
    : raising (phase * phase) :=
  if isinstance operation AddIndex_cls then Ok ([Some operation], [None])
  else if isinstance operation RemoveIndex_cls then Ok ([None], [Some operation])
  else
    match operation with
    | RenameIndex model_name new_name old_name _ =>
        model ← get_model_safely apps app_label model_name;
        index ← get_index_by_name model new_name;
        let add_operation :=
          AddIndexPatched_init (Str.lower (Model.__name__ model))
            (Index.clone index) old_name in
        let drop_operation := RemoveIndex (Str.lower (Model.__name__ model)) old_name in
        Ok ([Some add_operation], [Some drop_operation])
    | _ => Ok ([Some operation], [None])
    end.

Definition IndexStrategy : OperationStrategy :=
  {| can_handle := IndexStrategy_can_handle; split := IndexStrategy_split |}.

Definition ConstraintStrategy_can_handle (operation : Operation) : bool :=
  isinstance_any operation [AddConstraint_cls; RemoveConstraint_cls].

Definition ConstraintStrategy_split (operation : Operation) (app_label : string)
    : raising (phase * phase) :=
  if isinstance operation AddConstraint_cls then Ok ([Some operation], [None])
  else if isinstance operation RemoveConstraint_cls then Ok ([None], [Some operation])
  else Ok ([Some operation], [None]).

Definition ConstraintStrategy : OperationStrategy :=
  {| can_handle := ConstraintStrategy_can_handle; split := ConstraintStrategy_split |}.

End strategies.

(** ** operations/splitter.py *)

Module OperationSplitter.

Record t : Type := {
  app_label : string;
  strategies : list OperationStrategy
}.

(** [op for op in items if op is not None]. *)
Definition not_none (items : phase) : list Operation := omap id items.

(** The [for strategy in self.strategies] loop of [split_operation], with the
    fall-through after it. *)
Fixpoint first_strategy (strategies : list OperationStrategy)
    (operation : Operation) (app_label : string) : raising (phase * phase) :=
  match strategies with
  | [] => Ok ([Some operation], [None])
  | strategy :: rest =>
      if can_handle strategy operation then split strategy operation app_label
      else first_strategy rest operation app_label
  end.

Definition split_operation (self : t) (operation : Operation)
    : raising (phase * phase) :=
  if is_impossible operation then Ok ([Some operation], [None])
  else first_strategy (strategies self) operation (app_label self).

(** The [for operation in operations] loop of [split_operations]; the two
    accumulators are the lists [blue_ops] and [green_ops]. *)
Fixpoint split_operations_loop (self : t) (operations : list Operation)
    (blue_ops green_ops : list Operation) : raising (list Operation * list Operation) :=
  match operations with
  | [] => Ok (blue_ops, green_ops)
  | operation :: rest =>
      '(blue, green) ← split_operation self operation;
      split_operations_loop self rest
        (blue_ops ++ not_none blue) (green_ops ++ not_none green)
  end.

Definition split_operations (self : t) (operations : list Operation)
    : raising (list Operation * list Operation) :=
  split_operations_loop self operations [] [].

Definition detect_impossible_operations (self : t) (operations : list Operation)
    : list Operation :=
  filter (fun op => is_impossible op) operations.

Section init.

Variable apps : gmap string AppConfig.t.
Variable connection : Connection.

Definition __init__ (app_label : string) : t :=
  {| app_label := app_label;
     strategies := [ ModelStrategy apps connection;
                     FieldStrategy apps connection;
                     IndexStrategy apps;
                     ConstraintStrategy ] |}.

End init.

End OperationSplitter.

(** ** Migrations, as the host defines them *)

(** An entry of [Migration.dependencies]: a pair [(app_label, migration_name)],
    or anything else the host allows there. *)
Inductive Dependency : Type :=
| DepTuple (app_label migration_name : string)
| DepOther (items : list string).

Global Instance Dependency_eq_dec : EqDecision Dependency.
Proof. solve_decision. Defined.

Module Migration.
Record t : Type := {
  name : string;
  app_label : string;
  dependencies : list Dependency;
  operations : list Operation;
  replaces : list (string * string);
  run_before : list (string * string);
  initial : option bool
}.
End Migration.

Module MigrationWriter.
Record t : Type := {
  migration : Migration.t;
  include_header : bool
}.
End MigrationWriter.

Module MigrationLoader.
(** The loader's graph, reduced to the keys of [graph.nodes]. *)
Record t : Type := { graph_nodes : gset (string * string) }.
End MigrationLoader.

(** ** processors/migration_processor.py *)

Module BlueGreenMigrationProcessor.

Record t : Type := {
  non_interactive : bool;
  verbosity : nat;
  dry_run : bool;
  include_header : bool;
  scriptable : bool;
  written_files : list string;
  _migration_loader : option MigrationLoader.t
}.

Definition __init__ (non_interactive : bool) (verbosity : nat)
    (dry_run include_header scriptable : bool) : t :=
  {| non_interactive := non_interactive;
     verbosity := verbosity;
     dry_run := dry_run;
     include_header := include_header;
     scriptable := scriptable;
     written_files := [];
     _migration_loader := None |}.

Section with_host.

Variable apps : gmap string AppConfig.t.
Variable connection : Connection.
(** [MigrationLoader(connection, ignore_no_migrations=True)]: what the host
    loads from the migration modules at that moment. *)
Variable MigrationLoader_init : Connection -> MigrationLoader.t.
(** [Path.is_file] on the file system. *)
Variable is_file : string -> bool.

Definition _get_migration_loader (self : t) : MigrationLoader.t * t :=
  match _migration_loader self with
  | Some loader => (loader, self)
  | None =>
      let loader := MigrationLoader_init connection in
      (loader,
       {| non_interactive := non_interactive self;
          verbosity := verbosity self;
          dry_run := dry_run self;
          include_header := include_header self;
          scriptable := scriptable self;
          written_files := written_files self;
          _migration_loader := Some loader |})
  end.

(** [app_path / "migrations" / f"{migration_name}.py"] for a relative
    migration name. *)
Definition migration_path (app_path migration_name : string) : string :=
  app_path +:+ "/" +:+ "migrations" +:+ "/" +:+ (migration_name +:+ ".py").

Definition _migration_file_exists (self : t) (app_label migration_name : string)
    : bool :=
  match apps !! app_label with
  | Some app_config =>
      is_file (migration_path (AppConfig.path app_config) migration_name)
  | None => false
  end.

(** The body of the [for dep in dependencies] loop: the entry appended to
    [fixed_dependencies]. *)
Definition fix_dependency (self : t) (loader : MigrationLoader.t)
    (target_suffix : string) (dep : Dependency) : Dependency :=
  match dep with
  | DepTuple app_label migration_name =>
      if Str.endswith2 migration_name BLUE_SUFFIX GREEN_SUFFIX then dep
      else
        let target_name := migration_name +:+ target_suffix in
        let target_key := (app_label, target_name) in
        if bool_decide (target_key ∈ MigrationLoader.graph_nodes loader)
           || _migration_file_exists self app_label target_name
        then DepTuple app_label target_name
        else dep
  | DepOther _ => dep
  end.

Definition _fix_dependencies (self : t) (dependencies : list Dependency)
    (current_app_label : string) (is_green : bool) : list Dependency * t :=
  let '(loader, self) := _get_migration_loader self in
  let target_suffix := if is_green then GREEN_SUFFIX else BLUE_SUFFIX in
  (map (fix_dependency self loader target_suffix) dependencies, self).

Definition process_migration (self : t) (migration : Migration.t)
    : raising (MigrationWriter.t * MigrationWriter.t) * t :=
  let impossible := existsb is_impossible (Migration.operations migration) in
  if impossible then
    let splitter := OperationSplitter.__init__ apps connection (Migration.app_label migration) in
    let impossible_operations :=
      OperationSplitter.detect_impossible_operations splitter
        (Migration.operations migration) in
    (Raise (ImpossibleOperationError impossible_operations), self)
  else
    let splitter := OperationSplitter.__init__ apps connection (Migration.app_label migration) in
    match OperationSplitter.split_operations splitter (Migration.operations migration) with
    | Raise e => (Raise e, self)
    | Ok (blue_operations, green_operations) =>
        let '(blue_dependencies, self) :=
          _fix_dependencies self (Migration.dependencies migration)
            (Migration.app_label migration) false in
        let blue :=
          {| Migration.name := Migration.name migration +:+ BLUE_SUFFIX;
             Migration.app_label := Migration.app_label migration;
             Migration.dependencies := blue_dependencies;
             Migration.operations := blue_operations;
             Migration.replaces := Migration.replaces migration;
             Migration.run_before := Migration.run_before migration;
             Migration.initial := Migration.initial migration |} in
        let green :=
          {| Migration.name := Migration.name migration +:+ GREEN_SUFFIX;
             Migration.app_label := Migration.app_label migration;
             Migration.dependencies :=
               [DepTuple (Migration.app_label blue) (Migration.name blue)];
             Migration.operations := green_operations;
             Migration.replaces := Migration.replaces migration;
             Migration.run_before := Migration.run_before migration;
             Migration.initial := Migration.initial migration |} in
        (Ok ({| MigrationWriter.migration := blue;
                MigrationWriter.include_header := include_header self |},
             {| MigrationWriter.migration := green;
                MigrationWriter.include_header := include_header self |}),
         self)
    end.

End with_host.

End BlueGreenMigrationProcessor.

(** ** processors/plan_filter.py *)

Module MigrationPlanFilter.

(** A plan item: [(migration, backwards)]. *)
Abbreviation plan_item := (Migration.t * bool)%type.

(** [stdout] is [None] or a stream; a stream is the list of strings written
    to it so far. *)
Record t : Type := {
  blue_mode : bool;
  green_mode : bool;
  verbosity : nat;
  stdout : option (list string)
}.

Definition write (self : t) (text : string) : t :=
  {| blue_mode := blue_mode self;
     green_mode := green_mode self;
     verbosity := verbosity self;
     stdout := (fun stream => stream ++ [text]) <$> stdout self |}.

(** The report both filtering branches make when something was dropped. *)
Definition report (self : t) (original_count filtered_len : nat)
    (message : nat -> string) : t :=
  if Nat.leb 1 (verbosity self)
     && negb (Nat.eqb original_count filtered_len)
     && bool_decide (is_Some (stdout self))
  then write self (message (original_count - filtered_len))
  else self.

Definition filter_plan (self : t) (plan : list plan_item) : list plan_item * t :=
  if blue_mode self then
    let original_count := length plan in
    let filtered_plan :=
      filter (fun item => negb (Str.endswith (Migration.name (fst item)) "_green")) plan in
    (filtered_plan,
     report self original_count (length filtered_plan)
       (fun filtered_count =>
          "Blue deployment mode: skipping " +:+ Str.of_nat filtered_count
          +:+ " green migration(s)" +:+ String (ascii_of_nat 10) EmptyString))
  else if green_mode self then
    let original_count := length plan in
    let filtered_plan :=
      filter (fun item => negb (Str.endswith (Migration.name (fst item)) "_blue")) plan in
    (filtered_plan,
     report self original_count (length filtered_plan)
       (fun filtered_count =>
          "Green deployment mode: skipping " +:+ Str.of_nat filtered_count
          +:+ " blue migration(s)" +:+ String (ascii_of_nat 10) EmptyString))
  else (plan, self).

End MigrationPlanFilter.

(** ** management/commands/bluegreen.py: the writer of the [bluegreen] command *)

(** [op.__class__.__name__]. *)
Definition class_name (cls : OperationClass) : string :=
  match cls with
  | CreateModel_cls => "CreateModel"
  | DeleteModel_cls => "DeleteModel"
  | RenameModel_cls => "RenameModel"
  | AddField_cls => "AddField"
  | RemoveField_cls => "RemoveField"
  | RenameField_cls => "RenameField"
  | AddIndex_cls => "AddIndex"
  | RemoveIndex_cls => "RemoveIndex"
  | RenameIndex_cls => "RenameIndex"
  | AddConstraint_cls => "AddConstraint"
  | RemoveConstraint_cls => "RemoveConstraint"
  | AlterModelTable_cls => "AlterModelTable"
  | AlterUniqueTogether_cls => "AlterUniqueTogether"
  | AlterIndexTogether_cls => "AlterIndexTogether"
  | AlterModelOptions_cls => "AlterModelOptions"
  | AlterField_cls => "AlterField"
  | AlterOrderWithRespectTo_cls => "AlterOrderWithRespectTo"
  | AlterModelManagers_cls => "AlterModelManagers"
  | CreateModelPatched_cls => "CreateModelPatched"
  | AddFieldPatched_cls => "AddFieldPatched"
  | AddIndexPatched_cls => "AddIndexPatched"
  | RunSQL_cls => "RunSQL"
  | Other_cls name => name
  end.

Module PatchedMigrationWriter.

(** What [split_migrations] can raise: [ImpossibleOperationError] built with
    a message, or whatever the splitter raises. *)
Inductive Failure : Type :=
| ImpossibleOperationError_message (message : string)
| Raised (e : BlueGreenMigrationError).

Definition newline : string := String (ascii_of_nat 10) EmptyString.

(** [list(filter(None, chain.from_iterable(operations_lst)))]: operations are
    objects without [__bool__] or [__len__], so only [None] is dropped. *)
Definition flatten (operations_lst : list phase) : list Operation :=
  OperationSplitter.not_none (concat operations_lst).

Definition create_blue (self : MigrationWriter.t) (operations_lst : list phase)
    : Migration.t :=
  let operations := flatten operations_lst in
  {| Migration.name := Migration.name (MigrationWriter.migration self) +:+ BLUE_SUFFIX;
     Migration.app_label := Migration.app_label (MigrationWriter.migration self);
     Migration.dependencies := Migration.dependencies (MigrationWriter.migration self);
     Migration.operations := operations;
     Migration.replaces := Migration.replaces (MigrationWriter.migration self);
     Migration.run_before := Migration.run_before (MigrationWriter.migration self);
     Migration.initial := Migration.initial (MigrationWriter.migration self) |}.

Definition create_green (self : MigrationWriter.t) (migration_blue : Migration.t)
    (lst : list phase) : Migration.t :=
  let operations := flatten lst in
  {| Migration.name := Migration.name (MigrationWriter.migration self) +:+ GREEN_SUFFIX;
     Migration.app_label := Migration.app_label (MigrationWriter.migration self);
     Migration.dependencies :=
       [DepTuple (Migration.app_label migration_blue) (Migration.name migration_blue)];
     Migration.operations := operations;
     Migration.replaces := Migration.replaces (MigrationWriter.migration self);
     Migration.run_before := Migration.run_before (MigrationWriter.migration self);
     Migration.initial := Migration.initial (MigrationWriter.migration self) |}.

(** The message of the error [split_migrations] raises. *)
Definition impossible_message (self : MigrationWriter.t) : string :=
  let impossible_ops :=
    map (fun op => class_name (type_of op))
      (filter (fun op => type_of op ∈ IMPOSSIBLE_OPERATIONS)
         (Migration.operations (MigrationWriter.migration self))) in
  "Cannot split migration into blue-green phases." +:+ newline +:+ newline
  +:+ "Detected operations that cannot be split: " +:+ Str.join ", " impossible_ops
  +:+ newline
  +:+ "These operations require downtime and must use standard Django migrations."
  +:+ newline +:+ newline
  +:+ "Solution: Use 'python manage.py makemigrations' instead of 'bluegreen' command.".

Section with_host.

Variable apps : gmap string AppConfig.t.
Variable connection : Connection.

Definition blue_green (self : MigrationWriter.t) (operation : Operation)
    : raising (phase * phase) :=
  let splitter :=
    OperationSplitter.__init__ apps connection
      (Migration.app_label (MigrationWriter.migration self)) in
  OperationSplitter.split_operation splitter operation.

(** The [for operation in self.migration.operations] loop of
    [split_migrations], appending to [blue_list] and [green_list]. *)
Fixpoint split_loop (self : MigrationWriter.t) (operations : list Operation)
    (blue_list green_list : list phase) : raising (list phase * list phase) :=
  match operations with
  | [] => Ok (blue_list, green_list)
  | operation :: rest =>
      '(blue, green) ← blue_green self operation;
      split_loop self rest (blue_list ++ [blue]) (green_list ++ [green])
  end.

(** [MigrationWriter(migration=...)] takes the host's default
    [include_header=True]. *)
Definition split_migrations (self : MigrationWriter.t) (impossible non_interactive : bool)
    : result Failure (MigrationWriter.t * MigrationWriter.t) :=
  if impossible then Raise (ImpossibleOperationError_message (impossible_message self))
  else
    match split_loop self (Migration.operations (MigrationWriter.migration self)) [] [] with
    | Raise e => Raise (Raised e)
    | Ok (blue_list, green_list) =>
        let blue := create_blue self blue_list in
        let green := create_green self blue green_list in
        Ok ({| MigrationWriter.migration := blue; MigrationWriter.include_header := true |},
            {| MigrationWriter.migration := green; MigrationWriter.include_header := true |})
    end.

End with_host.

End PatchedMigrationWriter.

(** ** management/commands/migrate.py: the data-copy step of [Command.handle] *)

Module MigrateCommand.

(** The statement executed for one [AddFieldPatched] of a migration. *)
Definition copy_statement (connection : Connection) (migration : Migration.t)
    (model_name name old_name : string) : string :=
  let table_name := Migration.app_label migration +:+ "_" +:+ model_name in
  ("UPDATE " +:+ quote_name (ops connection) table_name +:+ " ")
  +:+ ("SET " +:+ quote_name (ops connection) name +:+ " = ")
  +:+ quote_name (ops connection) old_name.

(** The block that follows [executor.migrate] in [handle]: the statements
    passed to [cursor.execute], in order. Nothing is executed unless some
    operation of the plan is an [AddFieldPatched]. *)
Definition copy_renamed_fields (connection : Connection)
    (plan : list (Migration.t * bool)) : list string :=
  let operations := flat_map (fun item => Migration.operations (fst item)) plan in
  if existsb (fun op => isinstance op AddFieldPatched_cls) operations then
    flat_map
      (fun item =>
         let migration := fst item in
         flat_map
           (fun operation =>
              match operation with
              | AddFieldPatched model_name name _ old_name _ =>
                  [copy_statement connection migration model_name name old_name]
              | _ => []
              end)
           (Migration.operations migration))
      plan
  else [].

End MigrateCommand.

(** ** Vocabulary of the specification *)

(** A not-found error of the registry lookups. *)
Definition is_not_found (e : BlueGreenMigrationError) : Prop :=
  match e with
  | ModelNotFoundError _ | FieldNotFoundError _ | IndexNotFoundError _ => True
  | _ => False
  end.

(** The SQL text of a [RunSQL] operation. *)
Definition sql_of (op : Operation) : string :=
  match op with
  | RunSQL sql _ => sql
  | _ => EmptyString
  end.

(** A synthesized data-copy instruction is a [RunSQL]. *)
Definition is_data_copy (op : Operation) : bool :=
  bool_decide (type_of op = RunSQL_cls).

(** The objects a rename needs from the registry: the model, and for a field
    or index rename the new field or index of that model. *)
Definition rename_resolves (apps : gmap string AppConfig.t) (app_label : string)
    (op : Operation) : Prop :=
  match op with
  | RenameModel _ new_name =>
      exists model, get_model_safely apps app_label new_name = Ok model
  | RenameField model_name _ new_name =>
      exists model field,
        get_model_safely apps app_label model_name = Ok model /\
        get_field_by_name model new_name = Ok field
  | RenameIndex model_name new_name _ _ =>
      exists model index,
        get_model_safely apps app_label model_name = Ok model /\
        get_index_by_name model new_name = Ok index
  | _ => False
  end.

(** The [old_name] attribute of a rename instruction; [None] for any other
    instruction, [Some None] for a rename-index given by [old_fields]. *)
Definition renamed_from (op : Operation) : option (option string) :=
  match op with
  | RenameModel old_name _ => Some (Some old_name)
  | RenameField _ old_name _ => Some (Some old_name)
  | RenameIndex _ _ old_name _ => Some old_name
  | _ => None
  end.

(** Instructions that split wholly into the blue phase, and those that split
    wholly into the green phase. *)
Definition goes_blue (op : Operation) : bool :=
  is_impossible op
  || negb (isinstance_any op
             [ DeleteModel_cls; RenameModel_cls; RemoveField_cls; RenameField_cls;
               RemoveIndex_cls; RenameIndex_cls; RemoveConstraint_cls ]).

Definition goes_green (op : Operation) : bool :=
  isinstance_any op
    [DeleteModel_cls; RemoveField_cls; RemoveIndex_cls; RemoveConstraint_cls].

(** [selects keep l l']: [l'] holds exactly the items of [l] that satisfy
    [keep], in the order of [l]. *)
Inductive selects {A : Type} (keep : A -> Prop) : list A -> list A -> Prop :=
| selects_nil : selects keep [] []
| selects_keep x l l' : keep x -> selects keep l l' -> selects keep (x :: l) (x :: l')
| selects_drop x l l' : ~ keep x -> selects keep l l' -> selects keep (x :: l) l'.

(** The deployment mode a plan filter was built for. *)
Inductive DeploymentMode : Type := Unrestricted | BlueOnly | GreenOnly.

Definition mode_of (self : MigrationPlanFilter.t) : DeploymentMode :=
  if MigrationPlanFilter.blue_mode self then BlueOnly
  else if MigrationPlanFilter.green_mode self then GreenOnly
  else Unrestricted.

(** What a mode keeps, in the words of the specification. *)
Definition kept_in (mode : DeploymentMode) (item : MigrationPlanFilter.plan_item) : Prop :=
  match mode with
  | BlueOnly => Str.endswith (Migration.name (fst item)) GREEN_SUFFIX = false
  | GreenOnly => Str.endswith (Migration.name (fst item)) BLUE_SUFFIX = false
  | Unrestricted => True
  end.

(** A plan item for a migration of that name. *)
Definition plan_item_named (name : string) : MigrationPlanFilter.plan_item :=
  ({| Migration.name := name;
      Migration.app_label := "testapp";
      Migration.dependencies := [];
      Migration.operations := [];
      Migration.replaces := [];
      Migration.run_before := [];
      Migration.initial := None |}, false).

(** The dependency rewriting, in the words of the specification. *)

(** The name already ends in the blue or the green suffix. *)
Definition already_suffixed (migration_name : string) : Prop :=
  Str.endswith migration_name BLUE_SUFFIX = true \/
  Str.endswith migration_name GREEN_SUFFIX = true.

(** The candidate exists in the loaded migration graph or as a migration file
    on disk. *)
Definition candidate_exists (apps : gmap string AppConfig.t) (is_file : string -> bool)
    (loader : MigrationLoader.t) (app_label candidate : string) : Prop :=
  (app_label, candidate) ∈ MigrationLoader.graph_nodes loader \/
  exists app_config,
    apps !! app_label = Some app_config /\
    is_file (BlueGreenMigrationProcessor.migration_path
               (AppConfig.path app_config) candidate) = true.

Inductive rewritten (apps : gmap string AppConfig.t) (is_file : string -> bool)
    (loader : MigrationLoader.t) (target_suffix : string)
    : Dependency -> Dependency -> Prop :=
| rewritten_suffixed app_label migration_name :
    already_suffixed migration_name ->
    rewritten apps is_file loader target_suffix
      (DepTuple app_label migration_name) (DepTuple app_label migration_name)
| rewritten_redirected app_label migration_name :
    ~ already_suffixed migration_name ->
    candidate_exists apps is_file loader app_label (migration_name +:+ target_suffix) ->
    rewritten apps is_file loader target_suffix
      (DepTuple app_label migration_name)
      (DepTuple app_label (migration_name +:+ target_suffix))
| rewritten_vanilla app_label migration_name :
    ~ already_suffixed migration_name ->
    ~ candidate_exists apps is_file loader app_label (migration_name +:+ target_suffix) ->
    rewritten apps is_file loader target_suffix
      (DepTuple app_label migration_name) (DepTuple app_label migration_name)
| rewritten_other items :
    rewritten apps is_file loader target_suffix (DepOther items) (DepOther items).

(** *** Quoted and unquoted SQL text *)

(** Modelled from the spec: the host's identifier-quoting facility is not
    part of the package. This backend wraps the identifier in its quoting
    delimiter, as the docstring of [quote_identifier] shows for the double
    quote of PostgreSQL and the backtick of MySQL. *)
Definition delimited_ops (d : ascii) : DatabaseOperations :=
  {| quote_name := fun name => String d (name +:+ String d EmptyString) |}.

Definition delimited_connection (d : ascii) : Connection :=
  {| ops := delimited_ops d |}.

Definition backtick : ascii := ascii_of_nat 96.

(** The character [d] occurs in [s]. *)
Fixpoint has_char (d : ascii) (s : string) : bool :=
  match s with
  | EmptyString => false
  | String c r => Ascii.eqb c d || has_char d r
  end.

(** A connection whose [quote_name] puts the delimiter [d] around every
    identifier that does not itself contain [d]. *)
Definition delimits (d : ascii) (connection : Connection) : Prop :=
  forall identifier,
    has_char d identifier = false ->
    quote_name (ops connection) identifier
    = String d (identifier +:+ String d EmptyString).

(** The fixed pieces of SQL the builder writes around the identifiers. *)
Definition sql_fragments : list string :=
  [ "INSERT INTO "; " ("; ", "; ") "; "SELECT "; " FROM ";
    "UPDATE "; " SET "; " = "; " WHERE " ].

(** [d] can serve as a delimiter: it is not a character of the fixed SQL. *)
Definition delimiter_ok (d : ascii) : bool :=
  forallb (fun fragment => negb (has_char d fragment)) sql_fragments.

(** The text of [s] that lies outside quoting delimiters: scanning from the
    left, each delimiter switches between outside and inside, and only the
    characters met outside are kept. *)
Fixpoint outside_quotes (d : ascii) (inside : bool) (s : string) : string :=
  match s with
  | EmptyString => EmptyString
  | String c r =>
      if Ascii.eqb c d then outside_quotes d (negb inside) r
      else if inside then outside_quotes d inside r
      else String c (outside_quotes d inside r)
  end.


(** *** A small registry for the examples *)

Definition customer : Model.t :=
  {| Model.__name__ := "Customer";
     Model.app_label := "shop";
     Model.db_table := "shop_customer";
     Model.fields := [ Field.mk "id" "id" "BigAutoField";
                       Field.mk "email" "email" "EmailField" ];
     Model.indexes := [ Index.mk "customer_email_idx" ["email"] ] |}.

(** A model whose columns have nothing in common with [customer]. *)
Definition legacy_client : Model.t :=
  {| Model.__name__ := "Client";
     Model.app_label := "shop";
     Model.db_table := "shop_client";
     Model.fields := [ Field.mk "client_no" "client_no" "IntegerField" ];
     Model.indexes := [] |}.

Definition shop_apps : gmap string AppConfig.t :=
  {[ "shop" := {| AppConfig.path := "/srv/shop";
                  AppConfig.models := {[ "customer" := customer ]} |} ]}.

Definition mysql : Connection := delimited_connection backtick.

(** A host with nothing loaded in the migration graph and one blue migration
    file, [0005_foo_blue.py], in the shop's migrations directory. *)
Definition empty_graph (connection : Connection) : MigrationLoader.t :=
  {| MigrationLoader.graph_nodes := ∅ |}.

Definition foo_blue_on_disk (path : string) : bool :=
  String.eqb path "/srv/shop/migrations/0005_foo_blue.py".

Definition test_processor : BlueGreenMigrationProcessor.t :=
  BlueGreenMigrationProcessor.__init__ false 0 true false false.

Definition migration_0006 : Migration.t :=
  {| Migration.name := "0006_bar";
     Migration.app_label := "shop";
     Migration.dependencies :=
       [ DepTuple "shop" "0005_foo"; DepTuple "shop" "0004_baz_green";
         DepTuple "auth" "0001_initial" ];
     Migration.operations := [ CreateModel "Order" []; DeleteModel "Basket" ];
     Migration.replaces := [];
     Migration.run_before := [];
     Migration.initial := None |}.

Definition migration_0007 : Migration.t :=
  {| Migration.name := "0007_alter";
     Migration.app_label := "shop";
     Migration.dependencies := [ DepTuple "shop" "0006_bar" ];
     Migration.operations :=
       [ CreateModel "Order" [];
         AlterField "customer" "email" (Field.mk "email" "email" "TextField");
         AddField "customer" "phone" (Field.mk "phone" "phone" "CharField") true;
         AlterModelTable "customer" "clients" ];
     Migration.replaces := [];
     Migration.run_before := [];
     Migration.initial := None |}.

(** A host whose migration graph holds the blue half of the first migration
    of [auth]. *)
Definition auth_blue_graph (connection : Connection) : MigrationLoader.t :=
  {| MigrationLoader.graph_nodes := {[ ("auth", "0001_initial_blue") ]} |}.

(** A processor that has already loaded that graph. *)
Definition loaded_processor : BlueGreenMigrationProcessor.t :=
  {| BlueGreenMigrationProcessor.non_interactive := false;
     BlueGreenMigrationProcessor.verbosity := 0;
     BlueGreenMigrationProcessor.dry_run := true;
     BlueGreenMigrationProcessor.include_header := false;
     BlueGreenMigrationProcessor.scriptable := false;
     BlueGreenMigrationProcessor.written_files := [];
     BlueGreenMigrationProcessor._migration_loader := Some (auth_blue_graph mysql) |}.

(** A migration with one dependency of each sort: blue file on disk, already
    suffixed, blue node in the graph, neither, and not a pair. *)
Definition migration_0008 : Migration.t :=
  {| Migration.name := "0008_orders";
     Migration.app_label := "shop";
     Migration.dependencies :=
       [ DepTuple "shop" "0005_foo"; DepTuple "shop" "0004_baz_green";
         DepTuple "auth" "0001_initial"; DepTuple "sites" "0002_alter_domain";
         DepOther ["auth"; "User"; "swappable"] ];
     Migration.operations := [ CreateModel "Order" []; DeleteModel "Basket" ];
     Migration.replaces := [];
     Migration.run_before := [];
     Migration.initial := None |}.

(** ** Splitting single instructions *)

Arguments OperationSplitter.split_operation : simpl never.
Arguments OperationSplitter.split_operations : simpl never.

Section splitting.

Variable apps : gmap string AppConfig.t.
Variable connection : Connection.
Variable app_label : string.

Local Abbreviation splitter := (OperationSplitter.__init__ apps connection app_label).

Lemma split_goes_blue op :
  goes_blue op = true ->
  OperationSplitter.split_operation splitter op = Ok ([Some op], [None]).
Proof.
  destruct op; intros H; try discriminate H; reflexivity.
Qed.

Lemma split_goes_green op :
  goes_green op = true ->
  OperationSplitter.split_operation splitter op = Ok ([None], [Some op]).
Proof.
  destruct op; intros H; try discriminate H; reflexivity.
Qed.

(** The three renames, unfolded through the dispatch. *)
Lemma split_RenameModel old_name new_name :
  OperationSplitter.split_operation splitter (RenameModel old_name new_name) =
  (model ← get_model_safely apps app_label new_name;
   Ok ([ Some (CreateModelPatched_init (Model.__name__ model) (Model.fields model) old_name);
         Some (SQLBuilder.build_insert_select connection
                 (Model.app_label model +:+ "_" +:+ old_name_lower old_name)
                 (Model.db_table model)
                 (SQLBuilder.build_column_list_from_model model) None) ],
       [ Some (DeleteModel old_name) ])).
Proof. reflexivity. Qed.

Lemma split_RenameField model_name old_name new_name :
  OperationSplitter.split_operation splitter (RenameField model_name old_name new_name) =
  (model ← get_model_safely apps app_label model_name;
   field ← get_field_by_name model new_name;
   Ok ([ Some (AddFieldPatched_init (Str.lower (Model.__name__ model)) new_name
                 (Field.clone field) old_name true);
         Some (SQLBuilder.build_update_field_copy connection
                 (Model.db_table model) new_name old_name None None) ],
       [ Some (RemoveField (Str.lower (Model.__name__ model)) old_name) ])).
Proof. reflexivity. Qed.

Lemma split_RenameIndex model_name new_name old_name old_fields :
  OperationSplitter.split_operation splitter
    (RenameIndex model_name new_name old_name old_fields) =
  (model ← get_model_safely apps app_label model_name;
   index ← get_index_by_name model new_name;
   Ok ([ Some (AddIndexPatched_init (Str.lower (Model.__name__ model))
                 (Index.clone index) old_name) ],
       [ Some (RemoveIndex (Str.lower (Model.__name__ model)) old_name) ])).
Proof. reflexivity. Qed.

(** What one instruction contributes never contains a rename or a removal in
    blue, and only removals in green. *)
Lemma split_operation_phases op blue green :
  OperationSplitter.split_operation splitter op = Ok (blue, green) ->
  Forall (fun o => goes_blue o = true) (OperationSplitter.not_none blue) /\
  Forall (fun o => goes_green o = true) (OperationSplitter.not_none green).
Proof.
  intros H.
  destruct op;
    try (injection H as <- <-; split; repeat constructor; fail).
  - rewrite split_RenameModel in H.
    destruct (get_model_safely apps app_label new_name); [|discriminate].
    injection H as <- <-. split; repeat constructor.
  - rewrite split_RenameField in H.
    destruct (get_model_safely apps app_label model_name) as [m|]; [|discriminate].
    cbn in H. destruct (get_field_by_name m new_name); [|discriminate].
    injection H as <- <-. split; repeat constructor.
  - rewrite split_RenameIndex in H.
    destruct (get_model_safely apps app_label model_name) as [m|]; [|discriminate].
    cbn in H. destruct (get_index_by_name m new_name); [|discriminate].
    injection H as <- <-. split; repeat constructor.
Qed.

(** *** The loop of [split_operations] *)

Lemma split_operations_loop_acc ops blue_ops green_ops :
  OperationSplitter.split_operations_loop splitter ops blue_ops green_ops =
  ('(b, g) ← OperationSplitter.split_operations splitter ops;
   Ok (blue_ops ++ b, green_ops ++ g)).
Proof.
  unfold OperationSplitter.split_operations.
  revert blue_ops green_ops.
  induction ops as [|op ops IH]; intros blue_ops green_ops.
  - cbn. by rewrite !app_nil_r.
  - cbn [OperationSplitter.split_operations_loop].
    destruct (OperationSplitter.split_operation splitter op) as [[blue green]|e];
      [|reflexivity].
    cbn. rewrite (IH (blue_ops ++ _) (green_ops ++ _)), (IH (OperationSplitter.not_none blue)).
    destruct (OperationSplitter.split_operations_loop splitter ops [] []) as [[b g]|e];
      [|reflexivity].
    cbn. by rewrite !app_assoc.
Qed.

Lemma split_operations_cons op ops :
  OperationSplitter.split_operations splitter (op :: ops) =
  ('(blue, green) ← OperationSplitter.split_operation splitter op;
   '(b, g) ← OperationSplitter.split_operations splitter ops;
   Ok (OperationSplitter.not_none blue ++ b, OperationSplitter.not_none green ++ g)).
Proof.
  unfold OperationSplitter.split_operations at 1.
  cbn [OperationSplitter.split_operations_loop].
  destruct (OperationSplitter.split_operation splitter op) as [[blue green]|e];
    [|reflexivity].
  cbn. apply split_operations_loop_acc.
Qed.

Lemma split_operations_app ops1 ops2 :
  OperationSplitter.split_operations splitter (ops1 ++ ops2) =
  ('(b1, g1) ← OperationSplitter.split_operations splitter ops1;
   '(b2, g2) ← OperationSplitter.split_operations splitter ops2;
   Ok (b1 ++ b2, g1 ++ g2)).
Proof.
  induction ops1 as [|op ops1 IH].
  - change (OperationSplitter.split_operations splitter []) with
      (Ok ([], []) : raising (list Operation * list Operation)).
    cbn. destruct (OperationSplitter.split_operations splitter ops2) as [[b g]|e];
      reflexivity.
  - rewrite <- app_comm_cons, !split_operations_cons, IH.
    destruct (OperationSplitter.split_operation splitter op) as [[blue green]|e];
      [|reflexivity].
    cbn.
    destruct (OperationSplitter.split_operations splitter ops1) as [[b1 g1]|e];
      [|reflexivity].
    cbn.
    destruct (OperationSplitter.split_operations splitter ops2) as [[b2 g2]|e];
      [|reflexivity].
    cbn. by rewrite !app_assoc.
Qed.

Lemma split_operations_all_blue ops :
  Forall (fun o => goes_blue o = true) ops ->
  OperationSplitter.split_operations splitter ops = Ok (ops, []).
Proof.
  induction 1 as [|op ops Hop _ IH]; [reflexivity|].
  by rewrite split_operations_cons, (split_goes_blue _ Hop), IH.
Qed.

Lemma split_operations_all_green ops :
  Forall (fun o => goes_green o = true) ops ->
  OperationSplitter.split_operations splitter ops = Ok ([], ops).
Proof.
  induction 1 as [|op ops Hop _ IH]; [reflexivity|].
  by rewrite split_operations_cons, (split_goes_green _ Hop), IH.
Qed.

Lemma split_operations_phases ops blue_ops green_ops :
  OperationSplitter.split_operations splitter ops = Ok (blue_ops, green_ops) ->
  Forall (fun o => goes_blue o = true) blue_ops /\
  Forall (fun o => goes_green o = true) green_ops.
Proof.
  revert blue_ops green_ops.
  induction ops as [|op ops IH]; intros blue_ops green_ops H.
  - injection H as <- <-. by split.
  - rewrite split_operations_cons in H.
    destruct (OperationSplitter.split_operation splitter op) as [[blue green]|e] eqn:Hop;
      [|discriminate].
    cbn in H.
    destruct (OperationSplitter.split_operations splitter ops) as [[b g]|e] eqn:Hops;
      [|discriminate].
    injection H as <- <-.
    destruct (split_operation_phases _ _ _ Hop) as [Hb Hg].
    destruct (IH _ _ eq_refl) as [Hb' Hg'].
    split; by apply Forall_app.
Qed.

End splitting.

Section splitter_claims.

Variable apps : gmap string AppConfig.t.
Variable connection : Connection.
Variable app_label : string.

Local Abbreviation splitter := (OperationSplitter.__init__ apps connection app_label).
Local Abbreviation split_operation := (OperationSplitter.split_operation splitter).
Local Abbreviation split_operations := (OperationSplitter.split_operations splitter).

(** Claim C3. A create-model, add-field, add-index or add-constraint
    instruction splits into the instruction alone in blue and one [None] in
    green; a delete-model, remove-field, remove-index or remove-constraint
    instruction splits into one [None] in blue and the instruction alone in
    green. *)
Theorem additive_in_blue_destructive_in_green :
  (forall name fields,
      split_operation (CreateModel name fields)
      = Ok ([Some (CreateModel name fields)], [None])) /\
  (forall model_name name field preserve_default,
      split_operation (AddField model_name name field preserve_default)
      = Ok ([Some (AddField model_name name field preserve_default)], [None])) /\
  (forall model_name index,
      split_operation (AddIndex model_name index)
      = Ok ([Some (AddIndex model_name index)], [None])) /\
  (forall model_name constraint,
      split_operation (AddConstraint model_name constraint)
      = Ok ([Some (AddConstraint model_name constraint)], [None])) /\
  (forall name,
      split_operation (DeleteModel name)
      = Ok ([None], [Some (DeleteModel name)])) /\
  (forall model_name name,
      split_operation (RemoveField model_name name)
      = Ok ([None], [Some (RemoveField model_name name)])) /\
  (forall model_name name,
      split_operation (RemoveIndex model_name name)
      = Ok ([None], [Some (RemoveIndex model_name name)])) /\
  (forall model_name name,
      split_operation (RemoveConstraint model_name name)
      = Ok ([None], [Some (RemoveConstraint model_name name)])).
Proof.
  repeat split; intros;
    first [ by apply split_goes_blue | by apply split_goes_green ].
Qed.




(** Claim C9. When a list of instructions has been split into a blue list and
    a green list, splitting the concatenation of the two again gives back the
    same blue list and the same green list, so re-merging reconstructs the
    input instruction by instruction (same kinds, same target names). *)
Theorem resplit_reconstructs ops blue_ops green_ops :
  split_operations ops = Ok (blue_ops, green_ops) ->
  exists blue_ops' green_ops',
    split_operations (blue_ops ++ green_ops) = Ok (blue_ops', green_ops') /\
    blue_ops' ++ green_ops' = blue_ops ++ green_ops /\
    blue_ops' = blue_ops /\ green_ops' = green_ops.
Proof.
  intros H. exists blue_ops, green_ops.
  destruct (split_operations_phases _ _ _ _ _ _ H) as [Hb Hg].
  rewrite split_operations_app.
  rewrite (split_operations_all_blue _ _ _ _ Hb), (split_operations_all_green _ _ _ _ Hg).
  cbn. by rewrite app_nil_r.
Qed.

(** Claim C10. An instruction of an impossible kind never makes the splitter
    raise: alone it splits into itself in blue and one [None] in green, and
    inside a list it adds itself, unchanged, to the blue list and nothing to
    the green list, whatever precedes and follows it; the call raises only
    if the instructions before it or after it do. *)
Theorem impossible_goes_to_blue before op after :
  is_impossible op = true ->
  split_operation op = Ok ([Some op], [None]) /\
  split_operations (before ++ op :: after) =
    match split_operations before, split_operations after with
    | Ok (b1, g1), Ok (b2, g2) => Ok (b1 ++ op :: b2, g1 ++ g2)
    | Ok _, Raise e => Raise e
    | Raise e, _ => Raise e
    end.
Proof.
  intros Himp.
  assert (Hop : split_operation op = Ok ([Some op], [None])).
  { apply split_goes_blue. unfold goes_blue. by rewrite Himp. }
  split; [exact Hop|].
  rewrite split_operations_app, split_operations_cons, Hop.
  destruct (split_operations before) as [[b1 g1]|e]; [|reflexivity].
  cbn. destruct (split_operations after) as [[b2 g2]|e]; reflexivity.
Qed.

End splitter_claims.

(** ** Selecting from a list *)

Lemma selects_filter {A : Type} (P keep : A -> Prop) `{!forall x, Decision (P x)}
    (l : list A) :
  (forall x, P x <-> keep x) ->
  selects keep l (filter P l).
Proof.
  intros HP. induction l as [|x l IH]; [constructor|].
  rewrite filter_cons. destruct (decide (P x)) as [Hx|Hx].
  - apply selects_keep; [by apply HP|exact IH].
  - apply selects_drop; [by rewrite <- HP|exact IH].
Qed.

Lemma selects_all {A : Type} (keep : A -> Prop) (l : list A) :
  (forall x, keep x) -> selects keep l l.
Proof. intros H. induction l; constructor; auto. Qed.

Lemma selects_elem_of {A : Type} (keep : A -> Prop) (l l' : list A) x :
  selects keep l l' -> (x ∈ l' <-> x ∈ l /\ keep x).
Proof.
  induction 1 as [|y l l' Hy _ IH|y l l' Hy _ IH].
  - split; [intros H; inversion H|intros [H _]; inversion H].
  - rewrite !elem_of_cons, IH. split.
    + intros [->|[? ?]]; auto.
    + intros [[->|?] ?]; auto.
  - rewrite elem_of_cons, IH. split.
    + intros [? ?]; auto.
    + intros [[->|?] ?]; [contradiction|auto].
Qed.

(** ** The migration processor *)

Section processor_claims.

Variable apps : gmap string AppConfig.t.
Variable connection : Connection.
Variable MigrationLoader_init : Connection -> MigrationLoader.t.
Variable is_file : string -> bool.

Local Abbreviation process_migration :=
  (BlueGreenMigrationProcessor.process_migration apps connection MigrationLoader_init is_file).
Local Abbreviation _fix_dependencies :=
  (BlueGreenMigrationProcessor._fix_dependencies apps connection MigrationLoader_init is_file).
Local Abbreviation _get_migration_loader :=
  (BlueGreenMigrationProcessor._get_migration_loader connection MigrationLoader_init).

(** Claim C5. When a migration holds an instruction of an impossible kind,
    [process_migration] raises the impossible-operation error, which carries
    exactly the offending instructions of the migration in their order;
    no blue or green migration is returned and the processor is unchanged. *)
Theorem impossible_migration_is_rejected self migration op :
  op ∈ Migration.operations migration ->
  is_impossible op = true ->
  exists offending,
    process_migration self migration
    = (Raise (ImpossibleOperationError offending), self) /\
    op ∈ offending /\
    selects (fun o => is_impossible o = true) (Migration.operations migration) offending.
Proof.
  intros Hin Himp.
  assert (Hsel : selects (fun o => is_impossible o = true)
                   (Migration.operations migration)
                   (filter (fun o => is_impossible o) (Migration.operations migration))).
  { apply selects_filter. intros o. apply Is_true_true. }
  eexists. split; [|split; [|exact Hsel]].
  - unfold BlueGreenMigrationProcessor.process_migration.
    assert (Hex : existsb is_impossible (Migration.operations migration) = true).
    { apply existsb_exists. exists op. split; [by apply list_elem_of_In|exact Himp]. }
    rewrite Hex. reflexivity.
  - apply (selects_elem_of _ _ _ _ Hsel). auto.
Qed.

Lemma fix_dependency_rewritten self loader target_suffix dep :
  rewritten apps is_file loader target_suffix dep
    (BlueGreenMigrationProcessor.fix_dependency apps is_file self loader target_suffix dep).
Proof.
  destruct dep as [app_label migration_name|items]; [|constructor].
  cbn. unfold Str.endswith2.
  destruct (Str.endswith migration_name BLUE_SUFFIX) eqn:Hb.
  { apply rewritten_suffixed. by left. }
  destruct (Str.endswith migration_name GREEN_SUFFIX) eqn:Hg.
  { apply rewritten_suffixed. by right. }
  assert (Hns : ~ already_suffixed migration_name).
  { intros [H|H]; congruence. }
  cbn.
  destruct (bool_decide _
            || BlueGreenMigrationProcessor._migration_file_exists apps is_file self
                 app_label (migration_name +:+ target_suffix)) eqn:Hc.
  - apply rewritten_redirected; [exact Hns|].
    apply orb_true_iff in Hc as [Hc|Hc].
    + left. by apply bool_decide_eq_true in Hc.
    + right. unfold BlueGreenMigrationProcessor._migration_file_exists in Hc.
      destruct (apps !! app_label) as [cfg|]; [|discriminate]. by exists cfg.
  - apply rewritten_vanilla; [exact Hns|].
    apply orb_false_iff in Hc as [Hc1 Hc2].
    intros [H|(cfg & Hcfg & Hf)].
    + apply bool_decide_eq_false in Hc1. contradiction.
    + unfold BlueGreenMigrationProcessor._migration_file_exists in Hc2.
      rewrite Hcfg in Hc2. congruence.
Qed.

(** The loader the getter hands out: the cached one, or the one the host
    loads for the connection; it is cached afterwards. *)
Lemma get_migration_loader_cases self :
  (_get_migration_loader self).1
  = default (MigrationLoader_init connection)
      (BlueGreenMigrationProcessor._migration_loader self) /\
  BlueGreenMigrationProcessor._migration_loader (_get_migration_loader self).2
  = Some (_get_migration_loader self).1.
Proof.
  unfold BlueGreenMigrationProcessor._get_migration_loader.
  destruct (BlueGreenMigrationProcessor._migration_loader self) eqn:Hcached;
    cbn; split; auto.
Qed.

Lemma fix_dependencies_rewritten self dependencies current_app_label (is_green : bool) :
  Forall2
    (rewritten apps is_file
       (default (MigrationLoader_init connection)
          (BlueGreenMigrationProcessor._migration_loader self))
       (if is_green then GREEN_SUFFIX else BLUE_SUFFIX))
    dependencies
    (_fix_dependencies self dependencies current_app_label is_green).1 /\
  BlueGreenMigrationProcessor._migration_loader
    (_fix_dependencies self dependencies current_app_label is_green).2
  = Some (default (MigrationLoader_init connection)
            (BlueGreenMigrationProcessor._migration_loader self)).
Proof.
  destruct (get_migration_loader_cases self) as [<- Hcached].
  unfold BlueGreenMigrationProcessor._fix_dependencies.
  destruct (_get_migration_loader self) as [loader self'].
  cbn in *. split; [|exact Hcached].
  induction dependencies; constructor; auto using fix_dependency_rewritten.
Qed.

(** Claim C6. The graph consulted is the one of the loader the processor has
    cached or, when it has none yet, of the loader the host builds for the
    connection, which the processor caches from then on. In the pair made
    from a source migration, every dependency of the blue migration is the
    rewriting of the source dependency at the same position against that
    graph and the disk: unchanged when its name already ends in the blue or
    green suffix, redirected to the name plus the blue suffix when that
    candidate is in the graph or on disk, unchanged otherwise; the same holds
    with the green suffix when [_fix_dependencies] is asked for green. The
    green migration depends on exactly (own app, source name + "_blue"). *)
Theorem dependencies_of_the_pair self migration blue_writer green_writer self' :
  process_migration self migration = (Ok (blue_writer, green_writer), self') ->
  let loader :=
    match BlueGreenMigrationProcessor._migration_loader self with
    | Some cached => cached
    | None => MigrationLoader_init connection
    end in
  BlueGreenMigrationProcessor._migration_loader self' = Some loader /\
  Forall2
    (rewritten apps is_file loader BLUE_SUFFIX)
    (Migration.dependencies migration)
    (Migration.dependencies (MigrationWriter.migration blue_writer)) /\
  Migration.dependencies (MigrationWriter.migration green_writer)
  = [DepTuple (Migration.app_label migration) (Migration.name migration +:+ "_blue")] /\
  forall dependencies current_app_label (is_green : bool),
    Forall2
      (rewritten apps is_file loader
         (if is_green then GREEN_SUFFIX else BLUE_SUFFIX))
      dependencies
      (_fix_dependencies self dependencies current_app_label is_green).1.
Proof.
  intros H loader.
  assert (Hloader : loader
                    = default (MigrationLoader_init connection)
                        (BlueGreenMigrationProcessor._migration_loader self))
    by (subst loader; by destruct (BlueGreenMigrationProcessor._migration_loader self)).
  rewrite Hloader. clear loader Hloader.
  unfold BlueGreenMigrationProcessor.process_migration in H.
  destruct (existsb is_impossible (Migration.operations migration)); [discriminate|].
  destruct (OperationSplitter.split_operations _ _) as [[blue_ops green_ops]|e];
    [|discriminate].
  pose proof (fix_dependencies_rewritten self (Migration.dependencies migration)
                (Migration.app_label migration) false) as [Hfix Hcached].
  destruct (_fix_dependencies self (Migration.dependencies migration)
              (Migration.app_label migration) false) as [blue_deps self1].
  injection H as <- <- <-. cbn in *.
  split; [exact Hcached|]. split; [exact Hfix|]. split; [reflexivity|].
  intros. apply fix_dependencies_rewritten.
Qed.

End processor_claims.

(** ** The plan filter *)

(** Claim C7. Filtering returns exactly the plan items the mode keeps, in
    their original order: in blue mode those whose migration name does not
    end with the green suffix, in green mode those whose name does not end
    with the blue suffix, and in unrestricted mode the plan itself. On the
    plan [blue_A, green_A, vanilla_B] blue mode gives [blue_A, vanilla_B] and
    green mode gives [green_A, vanilla_B]. *)
Theorem filter_plan_keeps_the_mode self plan :
  selects (kept_in (mode_of self)) plan (MigrationPlanFilter.filter_plan self plan).1 /\
  match mode_of self with
  | Unrestricted => (MigrationPlanFilter.filter_plan self plan).1 = plan
  | BlueOnly | GreenOnly => True
  end /\
  let blue_A := plan_item_named "0001_initial_blue" in
  let green_A := plan_item_named "0001_initial_green" in
  let vanilla_B := plan_item_named "0002_add_field" in
  forall verbosity stdout,
    (MigrationPlanFilter.filter_plan
       {| MigrationPlanFilter.blue_mode := true;
          MigrationPlanFilter.green_mode := false;
          MigrationPlanFilter.verbosity := verbosity;
          MigrationPlanFilter.stdout := stdout |}
       [blue_A; green_A; vanilla_B]).1 = [blue_A; vanilla_B] /\
    (MigrationPlanFilter.filter_plan
       {| MigrationPlanFilter.blue_mode := false;
          MigrationPlanFilter.green_mode := true;
          MigrationPlanFilter.verbosity := verbosity;
          MigrationPlanFilter.stdout := stdout |}
       [blue_A; green_A; vanilla_B]).1 = [green_A; vanilla_B] /\
    (MigrationPlanFilter.filter_plan
       {| MigrationPlanFilter.blue_mode := false;
          MigrationPlanFilter.green_mode := false;
          MigrationPlanFilter.verbosity := verbosity;
          MigrationPlanFilter.stdout := stdout |}
       [blue_A; green_A; vanilla_B]).1 = [blue_A; green_A; vanilla_B].
Proof.
  split; [|split].
  - unfold mode_of, MigrationPlanFilter.filter_plan.
    destruct (MigrationPlanFilter.blue_mode self);
      [|destruct (MigrationPlanFilter.green_mode self)]; cbn [fst].
    + apply selects_filter. intros item. cbn.
      by destruct (Str.endswith (Migration.name item.1) _).
    + apply selects_filter. intros item. cbn.
      by destruct (Str.endswith (Migration.name item.1) _).
    + by apply selects_all.
  - unfold mode_of, MigrationPlanFilter.filter_plan.
    destruct (MigrationPlanFilter.blue_mode self);
      [|destruct (MigrationPlanFilter.green_mode self)]; done.
  - intros blue_A green_A vanilla_B verbosity stdout. repeat split.
Qed.

(** ** The SQL synthesizer and the schema validator *)

Lemma append_cons (x : ascii) (a b : string) : String x a +:+ b = String x (a +:+ b).
Proof. reflexivity. Qed.

Lemma append_assoc (a b c : string) : (a +:+ b) +:+ c = a +:+ (b +:+ c).
Proof.
  induction a as [|x a IH]; [reflexivity|].
  by rewrite !append_cons, IH.
Qed.

Lemma append_empty_l (a : string) : EmptyString +:+ a = a.
Proof. reflexivity. Qed.

Section unquoted_text.

Variable d : ascii.

Lemma outside_app_free (inside : bool) (a b : string) :
  has_char d a = false ->
  outside_quotes d inside (a +:+ b)
  = (if inside then EmptyString else a) +:+ outside_quotes d inside b.
Proof.
  induction a as [|x a IH]; intros H.
  - by destruct inside.
  - cbn in H. apply orb_false_iff in H as [Hx Ha].
    rewrite append_cons. cbn. rewrite Hx, (IH Ha). by destruct inside.
Qed.

(** A quoted identifier contributes nothing to the unquoted text. *)
Lemma outside_quoted (identifier rest : string) :
  has_char d identifier = false ->
  outside_quotes d false (String d (identifier +:+ String d EmptyString) +:+ rest)
  = outside_quotes d false rest.
Proof.
  intros H. rewrite append_cons, append_assoc, append_cons, append_empty_l.
  cbn. rewrite Ascii.eqb_refl. cbn.
  rewrite (outside_app_free true _ _ H), append_empty_l.
  cbn. by rewrite Ascii.eqb_refl.
Qed.

Variable connection : Connection.
Hypothesis Hdelimits : delimits d connection.

Lemma outside_quote_identifier (identifier rest : string) :
  has_char d identifier = false ->
  outside_quotes d false (quote_identifier connection identifier +:+ rest)
  = outside_quotes d false rest.
Proof.
  intros H. unfold quote_identifier. rewrite (Hdelimits _ H).
  by apply outside_quoted.
Qed.

Lemma outside_quoted_join (columns : list string) (rest : string) :
  has_char d ", " = false ->
  Forall (fun c => has_char d c = false) columns ->
  outside_quotes d false
    (Str.join ", " (map (quote_identifier connection) columns) +:+ rest)
  = Str.join ", " (map (fun _ => EmptyString) columns) +:+ outside_quotes d false rest.
Proof.
  intros Hsep. unfold Str.join.
  induction 1 as [|c columns Hc Hcs IH]; [reflexivity|].
  destruct columns as [|c' columns].
  - cbn. by rewrite outside_quote_identifier.
  - change (String.concat ", " (map (quote_identifier connection) (c :: c' :: columns)))
      with (quote_identifier connection c +:+ ", "
            +:+ String.concat ", " (map (quote_identifier connection) (c' :: columns))).
    change (String.concat ", " (map (fun _ : string => EmptyString) (c :: c' :: columns)))
      with (EmptyString +:+ ", "
            +:+ String.concat ", " (map (fun _ : string => EmptyString) (c' :: columns))).
    rewrite !append_assoc, (outside_quote_identifier _ _ Hc).
    rewrite (outside_app_free false _ _ Hsep), IH.
    by rewrite append_empty_l.
Qed.

End unquoted_text.

Lemma delimiter_ok_fragment d fragment :
  delimiter_ok d = true -> fragment ∈ sql_fragments -> has_char d fragment = false.
Proof.
  unfold delimiter_ok. rewrite forallb_forall. intros H Hin.
  apply list_elem_of_In in Hin. specialize (H _ Hin).
  by apply negb_true_iff in H.
Qed.

Lemma append_empty_r (a : string) : a +:+ EmptyString = a.
Proof.
  induction a as [|x a IH]; [reflexivity|].
  by rewrite append_cons, IH.
Qed.


(** The columns of a model, as a set and as a list. *)
Lemma elem_of_column_set model c :
  c ∈ SQLValidator.column_set model <-> c ∈ map Field.column (Model.fields model).
Proof. unfold SQLValidator.column_set. apply elem_of_list_to_set. Qed.

Lemma sorted_nil (columns : gset string) :
  SQLValidator.sorted columns = [] <-> columns = ∅.
Proof.
  unfold SQLValidator.sorted. split.
  - intros H. apply leibniz_equiv, elements_empty_inv.
    apply Permutation_nil_r. rewrite <- H.
    symmetry. apply merge_sort_Permutation.
  - intros ->. rewrite elements_empty. reflexivity.
Qed.

Lemma get_common_columns_nil source target :
  SQLValidator.get_common_columns source target = [] <->
  forall c, c ∈ map Field.column (Model.fields source) ->
            c ∉ map Field.column (Model.fields target).
Proof.
  unfold SQLValidator.get_common_columns. rewrite sorted_nil.
  split.
  - intros H c Hs Ht.
    assert (Hc : c ∈ SQLValidator.column_set source ∩ SQLValidator.column_set target).
    { apply elem_of_intersection. by rewrite !elem_of_column_set. }
    rewrite H in Hc. by apply not_elem_of_empty in Hc.
  - intros H. apply leibniz_equiv. intros c. split; [|by intros ?%not_elem_of_empty].
    rewrite elem_of_intersection, !elem_of_column_set. intros [Hs Ht].
    destruct (H c Hs Ht).
Qed.

Lemma check_safe_for_insert_select_cases source target :
  SQLValidator.check_safe_for_insert_select source target =
  if bool_decide (SQLValidator.get_common_columns source target = []) then
    Raise (SchemaValidationError
             ("No common columns between " +:+ Model.__name__ source
              +:+ " and " +:+ Model.__name__ target))
  else Ok tt.
Proof.
  unfold SQLValidator.check_safe_for_insert_select.
  case_bool_decide as Hc; [reflexivity|].
  destruct (SQLValidator.get_common_columns source target); [done|reflexivity].
Qed.

Section sql_claims.

Variable apps : gmap string AppConfig.t.
Variable connection : Connection.
Variable app_label : string.

Local Abbreviation splitter := (OperationSplitter.__init__ apps connection app_label).
Local Abbreviation split_operation := (OperationSplitter.split_operation splitter).



(** Claim C2, as the code has it. In the split of a rename-model the
    synthesized statement names the old table after INSERT INTO and the new
    model's table after FROM. *)
Theorem rename_model_copy_direction old_name new_name model :
  get_model_safely apps app_label new_name = Ok model ->
  exists add columns_list,
    split_operation (RenameModel old_name new_name)
    = Ok ([ Some add;
            Some (RunSQL
                    ("INSERT INTO "
                     +:+ quote_identifier connection
                           (Model.app_label model +:+ "_" +:+ Str.lower old_name)
                     +:+ " (" +:+ columns_list +:+ ") SELECT " +:+ columns_list
                     +:+ " FROM "
                     +:+ quote_identifier connection (Model.db_table model))
                    RunSQL_noop) ],
          [ Some (DeleteModel old_name) ]) /\
    columns_list
    = Str.join ", " (map (fun f => quote_identifier connection (Field.column f))
                       (Model.fields model)).
Proof.
  intros Hm. rewrite split_RenameModel, Hm. cbn.
  eexists _, _. split; [|reflexivity].
  unfold SQLBuilder.build_insert_select, SQLBuilder.build_column_list_from_model.
  rewrite map_map, !append_assoc. reflexivity.
Qed.

End sql_claims.

(** ** The claims on concrete inputs *)

(** The shop's splitter, on a MySQL connection. *)
Local Abbreviation shop_splitter := (OperationSplitter.__init__ shop_apps mysql "shop").



(** Claim C2 at the rename of [Client] to [Customer]: the statement inserts
    into the old table [shop_client] and reads from the new table
    [shop_customer]. *)
Lemma rename_model_copy_direction_witness :
  get_model_safely shop_apps "shop" "Customer" = Ok customer /\
  exists add columns_list,
    OperationSplitter.split_operation shop_splitter (RenameModel "Client" "Customer")
    = Ok ([ Some add;
            Some (RunSQL
                    ("INSERT INTO `shop_client` (" +:+ columns_list +:+ ") SELECT "
                     +:+ columns_list +:+ " FROM `shop_customer`")
                    RunSQL_noop) ],
          [ Some (DeleteModel "Client") ]) /\
    columns_list = "`id`, `email`".
Proof.
  split; [reflexivity|].
  exact (rename_model_copy_direction shop_apps mysql "shop" "Client" "Customer"
           customer eq_refl).
Defined.



Lemma resplit_reconstructs_witness :
  OperationSplitter.split_operations shop_splitter
    [ RenameModel "Client" "Customer"; DeleteModel "Basket";
      AddField "customer" "phone" (Field.mk "phone" "phone" "CharField") true ]
  = Ok ([ CreateModelPatched "Customer"
            [ ("id", Field.mk "id" "id" "BigAutoField");
              ("email", Field.mk "email" "email" "EmailField") ]
            "Client";
          RunSQL
            "INSERT INTO `shop_client` (`id`, `email`) SELECT `id`, `email` FROM `shop_customer`"
            RunSQL_noop;
          AddField "customer" "phone" (Field.mk "phone" "phone" "CharField") true ],
        [ DeleteModel "Client"; DeleteModel "Basket" ]) /\
  exists blue_ops' green_ops',
    OperationSplitter.split_operations shop_splitter
      ([ CreateModelPatched "Customer"
           [ ("id", Field.mk "id" "id" "BigAutoField");
             ("email", Field.mk "email" "email" "EmailField") ]
           "Client";
         RunSQL
           "INSERT INTO `shop_client` (`id`, `email`) SELECT `id`, `email` FROM `shop_customer`"
           RunSQL_noop;
         AddField "customer" "phone" (Field.mk "phone" "phone" "CharField") true ]
       ++ [ DeleteModel "Client"; DeleteModel "Basket" ])
    = Ok (blue_ops', green_ops') /\
    blue_ops' ++ green_ops'
    = [ CreateModelPatched "Customer"
          [ ("id", Field.mk "id" "id" "BigAutoField");
            ("email", Field.mk "email" "email" "EmailField") ]
          "Client";
        RunSQL
          "INSERT INTO `shop_client` (`id`, `email`) SELECT `id`, `email` FROM `shop_customer`"
          RunSQL_noop;
        AddField "customer" "phone" (Field.mk "phone" "phone" "CharField") true ]
      ++ [ DeleteModel "Client"; DeleteModel "Basket" ] /\
    blue_ops'
    = [ CreateModelPatched "Customer"
          [ ("id", Field.mk "id" "id" "BigAutoField");
            ("email", Field.mk "email" "email" "EmailField") ]
          "Client";
        RunSQL
          "INSERT INTO `shop_client` (`id`, `email`) SELECT `id`, `email` FROM `shop_customer`"
          RunSQL_noop;
        AddField "customer" "phone" (Field.mk "phone" "phone" "CharField") true ] /\
    green_ops' = [ DeleteModel "Client"; DeleteModel "Basket" ].
Proof.
  assert (H : OperationSplitter.split_operations shop_splitter
    [ RenameModel "Client" "Customer"; DeleteModel "Basket";
      AddField "customer" "phone" (Field.mk "phone" "phone" "CharField") true ]
  = Ok ([ CreateModelPatched "Customer"
            [ ("id", Field.mk "id" "id" "BigAutoField");
              ("email", Field.mk "email" "email" "EmailField") ]
            "Client";
          RunSQL
            "INSERT INTO `shop_client` (`id`, `email`) SELECT `id`, `email` FROM `shop_customer`"
            RunSQL_noop;
          AddField "customer" "phone" (Field.mk "phone" "phone" "CharField") true ],
        [ DeleteModel "Client"; DeleteModel "Basket" ])) by (vm_compute; reflexivity).
  split; [exact H|].
  exact (resplit_reconstructs shop_apps mysql "shop" _ _ _ H).
Defined.

Lemma impossible_goes_to_blue_witness :
  is_impossible (AlterField "customer" "email" (Field.mk "email" "email" "TextField")) = true /\
  OperationSplitter.split_operations shop_splitter
    ([ DeleteModel "Basket" ]
     ++ AlterField "customer" "email" (Field.mk "email" "email" "TextField")
        :: [ RenameModel "Client" "Missing" ])
  = Raise (ModelNotFoundError "Model 'Missing' not found in app 'shop'") /\
  OperationSplitter.split_operations shop_splitter
    ([ DeleteModel "Basket" ]
     ++ AlterField "customer" "email" (Field.mk "email" "email" "TextField")
        :: [ CreateModel "Order" [] ])
  = Ok ([ AlterField "customer" "email" (Field.mk "email" "email" "TextField");
          CreateModel "Order" [] ],
        [ DeleteModel "Basket" ]).
Proof.
  split; [reflexivity|]. split.
  - exact (proj2 (impossible_goes_to_blue shop_apps mysql "shop"
                    [DeleteModel "Basket"]
                    (AlterField "customer" "email" (Field.mk "email" "email" "TextField"))
                    [RenameModel "Client" "Missing"] eq_refl)).
  - exact (proj2 (impossible_goes_to_blue shop_apps mysql "shop"
                    [DeleteModel "Basket"]
                    (AlterField "customer" "email" (Field.mk "email" "email" "TextField"))
                    [CreateModel "Order" []] eq_refl)).
Defined.

Lemma impossible_migration_is_rejected_witness :
  AlterField "customer" "email" (Field.mk "email" "email" "TextField")
    ∈ Migration.operations migration_0007 /\
  exists offending,
    BlueGreenMigrationProcessor.process_migration shop_apps mysql empty_graph
      foo_blue_on_disk test_processor migration_0007
    = (Raise (ImpossibleOperationError offending), test_processor) /\
    AlterField "customer" "email" (Field.mk "email" "email" "TextField") ∈ offending /\
    selects (fun o => is_impossible o = true)
      (Migration.operations migration_0007) offending.
Proof.
  assert (Hin : AlterField "customer" "email" (Field.mk "email" "email" "TextField")
                  ∈ Migration.operations migration_0007).
  { cbn. set_solver. }
  split; [exact Hin|].
  exact (impossible_migration_is_rejected shop_apps mysql empty_graph foo_blue_on_disk
           test_processor migration_0007 _ Hin eq_refl).
Defined.

(** The offending instructions of [migration_0007], as the error carries them. *)
Example impossible_migration_offending :
  BlueGreenMigrationProcessor.process_migration shop_apps mysql empty_graph
    foo_blue_on_disk test_processor migration_0007
  = (Raise (ImpossibleOperationError
              [ AlterField "customer" "email" (Field.mk "email" "email" "TextField");
                AlterModelTable "customer" "clients" ]),
     test_processor).
Proof. vm_compute. reflexivity. Qed.

(** Claim C6 on a processor that loads the graph itself and on one that has
    it cached while the host would now load an empty graph: in both, the
    dependency on [auth] is redirected because its blue half is in the graph,
    the one on [0005_foo] because its blue file is on disk, and the others
    pass through. *)
Lemma dependencies_of_the_pair_witness :
  (exists blue_writer green_writer self',
      BlueGreenMigrationProcessor.process_migration shop_apps mysql auth_blue_graph
        foo_blue_on_disk test_processor migration_0008
      = (Ok (blue_writer, green_writer), self') /\
      BlueGreenMigrationProcessor._migration_loader self' = Some (auth_blue_graph mysql) /\
      Migration.dependencies (MigrationWriter.migration blue_writer)
      = [ DepTuple "shop" "0005_foo_blue"; DepTuple "shop" "0004_baz_green";
          DepTuple "auth" "0001_initial_blue"; DepTuple "sites" "0002_alter_domain";
          DepOther ["auth"; "User"; "swappable"] ] /\
      Forall2
        (rewritten shop_apps foo_blue_on_disk (auth_blue_graph mysql) BLUE_SUFFIX)
        (Migration.dependencies migration_0008)
        (Migration.dependencies (MigrationWriter.migration blue_writer)) /\
      Migration.dependencies (MigrationWriter.migration green_writer)
      = [ DepTuple "shop" "0008_orders_blue" ]) /\
  (exists blue_writer green_writer,
      BlueGreenMigrationProcessor.process_migration shop_apps mysql empty_graph
        foo_blue_on_disk loaded_processor migration_0008
      = (Ok (blue_writer, green_writer), loaded_processor) /\
      Migration.dependencies (MigrationWriter.migration blue_writer)
      = [ DepTuple "shop" "0005_foo_blue"; DepTuple "shop" "0004_baz_green";
          DepTuple "auth" "0001_initial_blue"; DepTuple "sites" "0002_alter_domain";
          DepOther ["auth"; "User"; "swappable"] ] /\
      Forall2
        (rewritten shop_apps foo_blue_on_disk (auth_blue_graph mysql) BLUE_SUFFIX)
        (Migration.dependencies migration_0008)
        (Migration.dependencies (MigrationWriter.migration blue_writer))).
Proof.
  split.
  - eexists _, _, _.
    assert (H : forall r, r = BlueGreenMigrationProcessor.process_migration shop_apps mysql
                  auth_blue_graph foo_blue_on_disk test_processor migration_0008 ->
                BlueGreenMigrationProcessor.process_migration shop_apps mysql
                  auth_blue_graph foo_blue_on_disk test_processor migration_0008 = r)
      by (intros r ->; reflexivity).
    split; [apply H; vm_compute; reflexivity|].
    pose proof (dependencies_of_the_pair shop_apps mysql auth_blue_graph foo_blue_on_disk
                  test_processor migration_0008 _ _ _ eq_refl)
      as (Hcached & Hblue & Hgreen & _).
    split; [exact Hcached|]. split; [reflexivity|].
    split; [exact Hblue|exact Hgreen].
  - eexists _, _.
    assert (H : forall r, r = BlueGreenMigrationProcessor.process_migration shop_apps mysql
                  empty_graph foo_blue_on_disk loaded_processor migration_0008 ->
                BlueGreenMigrationProcessor.process_migration shop_apps mysql
                  empty_graph foo_blue_on_disk loaded_processor migration_0008 = r)
      by (intros r ->; reflexivity).
    split; [apply H; vm_compute; reflexivity|].
    pose proof (dependencies_of_the_pair shop_apps mysql empty_graph foo_blue_on_disk
                  loaded_processor migration_0008 _ _ _ eq_refl)
      as (_ & Hblue & _).
    split; [reflexivity|exact Hblue].
Defined.



(** * Further properties of the package *)

(** ** Strings *)

Lemma ascii_lower_idemp c : Str.ascii_lower (Str.ascii_lower c) = Str.ascii_lower c.
Proof. destruct c as [[] [] [] [] [] [] [] []]; reflexivity. Qed.

Lemma lower_idemp s : Str.lower (Str.lower s) = Str.lower s.
Proof. induction s as [|c s IH]; [reflexivity|]. cbn. by rewrite ascii_lower_idemp, IH. Qed.

Lemma length_append a b : String.length (a +:+ b) = String.length a + String.length b.
Proof. induction a as [|x a IH]; [reflexivity|]. rewrite append_cons. cbn. by rewrite IH. Qed.

Lemma substring_all s : String.substring 0 (String.length s) s = s.
Proof. induction s as [|x s IH]; [reflexivity|]. cbn. by rewrite IH. Qed.

Lemma substring_skip p s m :
  String.substring (String.length p) m (p +:+ s) = String.substring 0 m s.
Proof. induction p as [|x p IH]; [reflexivity|]. rewrite append_cons. cbn. exact IH. Qed.

Lemma substring_split s k :
  k <= String.length s ->
  s = String.substring 0 k s +:+ String.substring k (String.length s - k) s.
Proof.
  revert k. induction s as [|x s IH]; intros k Hk.
  - cbn in Hk. assert (k = 0) as -> by lia. reflexivity.
  - destruct k as [|k].
    + cbn [String.substring]. rewrite append_empty_l.
      change (String.length (String x s) - 0) with (S (String.length s)).
      cbn. by rewrite substring_all.
    + cbn in Hk. cbn [String.substring String.length]. rewrite append_cons.
      f_equal. replace (S (String.length s) - S k) with (String.length s - k) by lia.
      apply IH. lia.
Qed.

Lemma endswith_iff s suffix :
  Str.endswith s suffix = true <-> exists p, s = p +:+ suffix.
Proof.
  unfold Str.endswith. rewrite andb_true_iff, Nat.leb_le, String.eqb_eq. split.
  - intros [Hle Hsub]. exists (String.substring 0 (String.length s - String.length suffix) s).
    rewrite <- Hsub at 2.
    rewrite (substring_split s (String.length s - String.length suffix)) at 1 by lia.
    do 3 f_equal. lia.
  - intros [p ->]. rewrite length_append. split; [lia|].
    replace (String.length p + String.length suffix - String.length suffix)
      with (String.length p) by lia.
    by rewrite substring_skip, substring_all.
Qed.

Lemma append_inj_suffix a x b y :
  a +:+ x = b +:+ y -> String.length x = String.length y -> x = y.
Proof.
  intros H Hlen.
  assert (Hab : String.length a = String.length b).
  { apply (f_equal String.length) in H. rewrite !length_append in H. lia. }
  rewrite <- (substring_all x), <- (substring_skip a x (String.length x)).
  rewrite H, Hab, Hlen, substring_skip. apply substring_all.
Qed.

Lemma endswith_append s suffix : Str.endswith (s +:+ suffix) suffix = true.
Proof. apply endswith_iff. by exists s. Qed.

Lemma blue_name_not_green s : Str.endswith (s +:+ BLUE_SUFFIX) GREEN_SUFFIX = false.
Proof.
  apply not_true_is_false. intros [p Hp]%endswith_iff.
  change (s +:+ BLUE_SUFFIX) with (s +:+ ("_blu" +:+ "e")) in Hp.
  change (p +:+ GREEN_SUFFIX) with (p +:+ ("_gree" +:+ "n")) in Hp.
  rewrite <- !append_assoc in Hp.
  by apply append_inj_suffix in Hp.
Qed.

Lemma green_name_not_blue s : Str.endswith (s +:+ GREEN_SUFFIX) BLUE_SUFFIX = false.
Proof.
  apply not_true_is_false. intros [p Hp]%endswith_iff.
  change (s +:+ GREEN_SUFFIX) with (s +:+ ("_gree" +:+ "n")) in Hp.
  change (p +:+ BLUE_SUFFIX) with (p +:+ ("_blu" +:+ "e")) in Hp.
  rewrite <- !append_assoc in Hp.
  by apply append_inj_suffix in Hp.
Qed.

(** ** More on the schema validator *)

Lemma elem_of_sorted (columns : gset string) c :
  c ∈ SQLValidator.sorted columns <-> c ∈ columns.
Proof.
  unfold SQLValidator.sorted.
  rewrite (merge_sort_Permutation String.le (elements columns)).
  apply elem_of_elements.
Qed.

Lemma sorted_strongly_sorted (columns : gset string) :
  StronglySorted String.le (SQLValidator.sorted columns).
Proof. apply StronglySorted_merge_sort; apply _. Qed.

Lemma sorted_NoDup (columns : gset string) : NoDup (SQLValidator.sorted columns).
Proof.
  unfold SQLValidator.sorted.
  rewrite (merge_sort_Permutation String.le (elements columns)).
  apply NoDup_elements.
Qed.

(** The common columns are the intersection of the two column sets, listed
    once each in ascending lexicographic order. *)
Theorem get_common_columns_sorted_intersection source target :
  StronglySorted String.le (SQLValidator.get_common_columns source target) /\
  NoDup (SQLValidator.get_common_columns source target) /\
  forall c,
    c ∈ SQLValidator.get_common_columns source target <->
    c ∈ map Field.column (Model.fields source) /\
    c ∈ map Field.column (Model.fields target).
Proof.
  unfold SQLValidator.get_common_columns.
  split; [apply sorted_strongly_sorted|]. split; [apply sorted_NoDup|].
  intros c. by rewrite elem_of_sorted, elem_of_intersection, !elem_of_column_set.
Qed.

Lemma get_common_columns_comm source target :
  SQLValidator.get_common_columns source target
  = SQLValidator.get_common_columns target source.
Proof.
  unfold SQLValidator.get_common_columns. f_equal. apply (comm_L (∩)).
Qed.

(** The result does not depend on which model is the source and which the
    target, nor on the order or repetition of fields: models with the same
    columns give the same list. *)
Theorem get_common_columns_depends_on_column_sets source target source' target' :
  (forall c, c ∈ map Field.column (Model.fields source) <->
             c ∈ map Field.column (Model.fields source')) ->
  (forall c, c ∈ map Field.column (Model.fields target) <->
             c ∈ map Field.column (Model.fields target')) ->
  SQLValidator.get_common_columns source target
  = SQLValidator.get_common_columns source' target' /\
  SQLValidator.get_common_columns source target
  = SQLValidator.get_common_columns target source.
Proof.
  intros Hs Ht. unfold SQLValidator.get_common_columns.
  assert (Es : SQLValidator.column_set source = SQLValidator.column_set source').
  { apply leibniz_equiv. intros c. by rewrite !elem_of_column_set. }
  assert (Et : SQLValidator.column_set target = SQLValidator.column_set target').
  { apply leibniz_equiv. intros c. by rewrite !elem_of_column_set. }
  split.
  - by rewrite Es, Et.
  - f_equal. apply (comm_L (∩)).
Qed.

Lemma difference_empty_iff (X Y : gset string) :
  X ∖ Y = ∅ <-> forall c, c ∈ X -> c ∈ Y.
Proof.
  split.
  - intros H c Hc. destruct (decide (c ∈ Y)) as [|Hn]; [done|].
    assert (c ∈ X ∖ Y) as Hd by (by apply elem_of_difference).
    rewrite H in Hd. by apply not_elem_of_empty in Hd.
  - intros H. apply leibniz_equiv. intros c. split.
    + intros [Hx Hy]%elem_of_difference. destruct (Hy (H c Hx)).
    + by intros ?%not_elem_of_empty.
Qed.

Lemma validate_schema_compatibility_cases source_columns target_columns strict :
  ((SQLValidator.validate_schema_compatibility source_columns target_columns strict).1
   = true <->
   (forall c, c ∈ source_columns -> c ∈ target_columns) /\
   (strict = true -> forall c, c ∈ target_columns -> c ∈ source_columns)) /\
  ((SQLValidator.validate_schema_compatibility source_columns target_columns strict).1
   = true <->
   (SQLValidator.validate_schema_compatibility source_columns target_columns strict).2
   = []) /\
  length (SQLValidator.validate_schema_compatibility source_columns target_columns strict).2
  <= 2.
Proof.
  unfold SQLValidator.validate_schema_compatibility. cbn [fst snd].
  assert (H1 : (list_to_set source_columns : gset string) ∖ list_to_set target_columns = ∅
               <-> forall c, c ∈ source_columns -> c ∈ target_columns).
  { rewrite difference_empty_iff. by setoid_rewrite elem_of_list_to_set. }
  assert (H2 : (list_to_set target_columns : gset string) ∖ list_to_set source_columns = ∅
               <-> forall c, c ∈ target_columns -> c ∈ source_columns).
  { rewrite difference_empty_iff. by setoid_rewrite elem_of_list_to_set. }
  destruct strict; repeat case_bool_decide; cbn in *;
    repeat split; try done; try lia; try tauto; intros; try tauto; try discriminate;
    try (exfalso; tauto).
Qed.

(** Schema compatibility holds exactly when every source column is a target
    column and, in strict mode, every target column is a source column; the
    verdict is true exactly when no error is listed, and at most two errors
    are ever listed. *)
Theorem validate_schema_compatibility_verdict source_columns target_columns strict :
  ((SQLValidator.validate_schema_compatibility source_columns target_columns strict).1
   = true <->
   (forall c, c ∈ source_columns -> c ∈ target_columns) /\
   (strict = true -> forall c, c ∈ target_columns -> c ∈ source_columns)) /\
  ((SQLValidator.validate_schema_compatibility source_columns target_columns strict).1
   = true <->
   (SQLValidator.validate_schema_compatibility source_columns target_columns strict).2
   = []) /\
  length (SQLValidator.validate_schema_compatibility source_columns target_columns strict).2
  <= 2.
Proof. apply validate_schema_compatibility_cases. Qed.

Lemma validate_column_list_cases model columns :
  ((SQLValidator.validate_column_list model columns).1 = true <->
   forall c, c ∈ columns -> c ∈ map Field.column (Model.fields model)) /\
  (forall c,
      c ∈ (SQLValidator.validate_column_list model columns).2 <->
      c ∈ columns /\ c ∉ map Field.column (Model.fields model)) /\
  StronglySorted String.le (SQLValidator.validate_column_list model columns).2 /\
  NoDup (SQLValidator.validate_column_list model columns).2 /\
  ((SQLValidator.validate_column_list model columns).1 = true <->
   (SQLValidator.validate_column_list model columns).2 = []).
Proof.
  unfold SQLValidator.validate_column_list. cbn [fst snd].
  assert (Hempty : size ((list_to_set columns : gset string)
                          ∖ SQLValidator.column_set model) = 0
                   <-> (list_to_set columns : gset string)
                         ∖ SQLValidator.column_set model = ∅).
  { rewrite size_empty_iff. split; [apply leibniz_equiv|by intros ->]. }
  split; [|split; [|split; [|split]]].
  - rewrite bool_decide_eq_true, Hempty, difference_empty_iff.
    split; intros H c Hc.
    + apply elem_of_column_set, H. by apply elem_of_list_to_set.
    + apply elem_of_list_to_set in Hc. by apply elem_of_column_set, H.
  - intros c. by rewrite elem_of_sorted, elem_of_difference, elem_of_list_to_set,
      elem_of_column_set.
  - apply sorted_strongly_sorted.
  - apply sorted_NoDup.
  - by rewrite bool_decide_eq_true, Hempty, sorted_nil.
Qed.

(** A column list is valid for a model exactly when each of its columns is a
    column of the model; the second component lists, once each and in
    ascending order, the columns that are not, and is empty exactly when the
    verdict is true. *)
Theorem validate_column_list_verdict model columns :
  ((SQLValidator.validate_column_list model columns).1 = true <->
   forall c, c ∈ columns -> c ∈ map Field.column (Model.fields model)) /\
  (forall c,
      c ∈ (SQLValidator.validate_column_list model columns).2 <->
      c ∈ columns /\ c ∉ map Field.column (Model.fields model)) /\
  StronglySorted String.le (SQLValidator.validate_column_list model columns).2 /\
  NoDup (SQLValidator.validate_column_list model columns).2 /\
  ((SQLValidator.validate_column_list model columns).1 = true <->
   (SQLValidator.validate_column_list model columns).2 = []).
Proof. apply validate_column_list_cases. Qed.

(** A model's own column order always passes [validate_column_list], and it
    is the column list the SQL builder derives from the model. *)
Theorem own_column_order_is_valid model :
  SQLValidator.validate_column_list model (SQLValidator.get_column_order model)
  = (true, []) /\
  SQLValidator.get_column_order model = SQLBuilder.build_column_list_from_model model.
Proof.
  split; [|reflexivity].
  pose proof (validate_column_list_cases model (SQLValidator.get_column_order model))
    as (Hv & _ & _ & _ & Hnil).
  assert (H : (SQLValidator.validate_column_list model
                 (SQLValidator.get_column_order model)).1 = true).
  { apply Hv. by intros c Hc. }
  destruct (SQLValidator.validate_column_list model _) as [v missing].
  cbn in *. subst v. f_equal. by apply Hnil.
Qed.

(** The insert-select check accepts a pair of models whichever is taken as
    the source, accepts a model against itself as soon as it has a field,
    and its only failure is the zero-common-columns error: the later test
    for fewer than one common column never raises. *)
Theorem check_safe_for_insert_select_outcomes source target :
  (SQLValidator.check_safe_for_insert_select source target = Ok tt <->
   SQLValidator.check_safe_for_insert_select target source = Ok tt) /\
  (SQLValidator.check_safe_for_insert_select source source = Ok tt <->
   Model.fields source <> []) /\
  (SQLValidator.check_safe_for_insert_select source target = Ok tt \/
   SQLValidator.check_safe_for_insert_select source target
   = Raise (SchemaValidationError
              ("No common columns between " +:+ Model.__name__ source
               +:+ " and " +:+ Model.__name__ target))).
Proof.
  rewrite !check_safe_for_insert_select_cases.
  split; [|split].
  - rewrite (get_common_columns_comm source target).
    by repeat case_bool_decide.
  - case_bool_decide as Hc.
    + split; [discriminate|]. intros Hf. exfalso.
      destruct (Model.fields source) as [|f fields] eqn:E; [done|].
      apply (proj1 (get_common_columns_nil _ _) Hc (Field.column f));
        rewrite E; apply list_elem_of_here.
    + split; [|done]. intros _ E. apply Hc.
      apply get_common_columns_nil. rewrite E. intros c Hin. inversion Hin.
  - case_bool_decide; auto.
Qed.

(** When non-strict (or strict) schema compatibility holds between the
    columns of two models and the source has a field, the insert-select
    check accepts the pair. *)
Theorem compatible_schemas_are_safe source target strict :
  (SQLValidator.validate_schema_compatibility
     (SQLValidator.get_column_order source) (SQLValidator.get_column_order target)
     strict).1 = true ->
  Model.fields source <> [] ->
  SQLValidator.check_safe_for_insert_select source target = Ok tt.
Proof.
  intros Hv Hf.
  apply (proj1 (validate_schema_compatibility_cases _ _ _)) in Hv as [Hsub _].
  rewrite check_safe_for_insert_select_cases.
  rewrite bool_decide_eq_false_2; [reflexivity|].
  intros Hnil.
  destruct (Model.fields source) as [|f fields] eqn:E; [done|].
  assert (Hin : Field.column f ∈ map Field.column (Model.fields source)).
  { rewrite E. apply list_elem_of_here. }
  apply (proj1 (get_common_columns_nil _ _) Hnil _ Hin).
  apply Hsub. exact Hin.
Qed.

(** ** Registry lookups *)

(** The model lookup ignores the case of the model name: a name and its
    lower-cased form find the same model or both fail. A failure is always
    the model-not-found error naming the requested model and application. *)
Theorem get_model_safely_ignores_case apps app_label model_name :
  (forall model,
      get_model_safely apps app_label (Str.lower model_name) = Ok model <->
      get_model_safely apps app_label model_name = Ok model) /\
  (get_model_safely apps app_label model_name
   = Raise (ModelNotFoundError
              ("Model '" +:+ model_name +:+ "' not found in app '" +:+ app_label +:+ "'"))
   \/ exists app_config model,
        apps !! app_label = Some app_config /\
        AppConfig.models app_config !! Str.lower model_name = Some model /\
        get_model_safely apps app_label model_name = Ok model).
Proof.
  unfold get_model_safely. rewrite lower_idemp.
  destruct (apps !! app_label) as [cfg|].
  - destruct (AppConfig.models cfg !! Str.lower model_name) as [m|] eqn:E.
    + split; [done|]. right. by exists cfg, m.
    + split; [done|]. by left.
  - split; [done|]. by left.
Qed.

Lemma filter_first {A : Type} (P : A -> Prop) `{!forall x, Decision (P x)} (l : list A) :
  match filter P l with
  | [] => Forall (fun x => ~ P x) l
  | x :: _ => exists before after,
                l = before ++ x :: after /\ P x /\ Forall (fun y => ~ P y) before
  end.
Proof.
  induction l as [|y l IH]; [constructor|].
  rewrite filter_cons. destruct (decide (P y)) as [Hy|Hy].
  - exists [], l. by repeat split.
  - destruct (filter P l) as [|x rest].
    + by constructor.
    + destruct IH as (before & after & -> & Hx & Hb).
      exists (y :: before), after. repeat split; [done|by constructor].
Qed.

(** [get_field_by_name] returns the first field of the model that has the
    name, and raises the field-not-found error exactly when no field has it. *)
Theorem get_field_by_name_first_match model field_name :
  match get_field_by_name model field_name with
  | Ok field =>
      exists before after,
        Model.fields model = before ++ field :: after /\
        Field.name field = field_name /\
        Forall (fun f => Field.name f <> field_name) before
  | Raise e =>
      e = FieldNotFoundError
            ("Field '" +:+ field_name +:+ "' not found in model '"
             +:+ Model.__name__ model +:+ "'") /\
      Forall (fun f => Field.name f <> field_name) (Model.fields model)
  end.
Proof.
  unfold get_field_by_name.
  pose proof (filter_first (fun f => Field.name f = field_name) (Model.fields model)) as H.
  destruct (filter _ (Model.fields model)) as [|f rest]; [by split|exact H].
Qed.

(** [get_index_by_name] returns the first index of the model that has the
    name, and raises the index-not-found error exactly when no index has it. *)
Theorem get_index_by_name_first_match model index_name :
  match get_index_by_name model index_name with
  | Ok index =>
      exists before after,
        Model.indexes model = before ++ index :: after /\
        Index.name index = index_name /\
        Forall (fun i => Index.name i <> index_name) before
  | Raise e =>
      e = IndexNotFoundError
            ("Index '" +:+ index_name +:+ "' not found in model '"
             +:+ Model.__name__ model +:+ "'") /\
      Forall (fun i => Index.name i <> index_name) (Model.indexes model)
  end.
Proof.
  unfold get_index_by_name.
  pose proof (filter_first (fun i => Index.name i = index_name) (Model.indexes model)) as H.
  destruct (filter _ (Model.indexes model)) as [|i rest]; [by split|exact H].
Qed.

(** ** Quoting several identifiers *)

(** On a backend that wraps identifiers in a delimiter, each identifier
    quoted by [quote_identifiers] lies wholly between delimiters, and the
    column list built by [build_quoted_column_list] is the quoted
    identifiers joined by [", "], with only the separators outside the
    delimiters. *)
Theorem quoted_column_list_is_quoted d connection columns :
  delimiter_ok d = true ->
  delimits d connection ->
  Forall (fun c => has_char d c = false) columns ->
  length (quote_identifiers connection columns) = length columns /\
  Forall (fun q => outside_quotes d false q = EmptyString)
    (quote_identifiers connection columns) /\
  SQLBuilder.build_quoted_column_list connection columns
  = Str.join ", " (quote_identifiers connection columns) /\
  outside_quotes d false (SQLBuilder.build_quoted_column_list connection columns)
  = Str.join ", " (map (fun _ => EmptyString) columns).
Proof.
  intros Hd Hq Hc.
  split; [apply length_map|]. split; [|split; [reflexivity|]].
  - unfold quote_identifiers. apply Forall_map.
    eapply Forall_impl; [exact Hc|]. intros c Hfree. cbn.
    rewrite <- (append_empty_r (quote_identifier connection c)).
    by rewrite (outside_quote_identifier d connection Hq _ _ Hfree).
  - unfold SQLBuilder.build_quoted_column_list.
    rewrite <- (append_empty_r (Str.join ", " (map (quote_identifier connection) columns))).
    rewrite (outside_quoted_join d connection Hq columns EmptyString); [|
      apply (delimiter_ok_fragment d _ Hd); set_solver | exact Hc].
    cbn. by rewrite append_empty_r.
Qed.

(** ** More on the operation splitter *)

Section splitter_extras.

Variable apps : gmap string AppConfig.t.
Variable connection : Connection.
Variable app_label : string.

Local Abbreviation splitter := (OperationSplitter.__init__ apps connection app_label).
Local Abbreviation split_operation := (OperationSplitter.split_operation splitter).
Local Abbreviation split_operations := (OperationSplitter.split_operations splitter).

Lemma not_rename_blue_or_green op :
  renamed_from op = None -> goes_blue op = negb (goes_green op).
Proof. destruct op; intros H; try discriminate H; reflexivity. Qed.

Lemma split_operation_succeeds_iff op :
  (exists r, split_operation op = Ok r) <->
  renamed_from op = None \/ rename_resolves apps app_label op.
Proof.
  split.
  - intros [r Hr].
    destruct op; try (by left); right; cbn.
    + rewrite split_RenameModel in Hr.
      destruct (get_model_safely apps app_label new_name) as [m|]; [|discriminate].
      by exists m.
    + rewrite split_RenameField in Hr.
      destruct (get_model_safely apps app_label model_name) as [m|]; [|discriminate].
      cbn in Hr. destruct (get_field_by_name m new_name) as [f|] eqn:Ef; [|discriminate].
      by exists m, f.
    + rewrite split_RenameIndex in Hr.
      destruct (get_model_safely apps app_label model_name) as [m|]; [|discriminate].
      cbn in Hr. destruct (get_index_by_name m new_name) as [i|] eqn:Ei; [|discriminate].
      by exists m, i.
  - intros [Hn|Hres].
    + destruct (goes_green op) eqn:Hg.
      * eexists. by apply split_goes_green.
      * eexists. apply split_goes_blue. by rewrite (not_rename_blue_or_green _ Hn), Hg.
    + destruct op; cbn in Hres; try contradiction.
      * rewrite split_RenameModel. destruct Hres as [m ->]. by eexists.
      * rewrite split_RenameField. destruct Hres as (m & f & -> & Hf). cbn.
        rewrite Hf. by eexists.
      * rewrite split_RenameIndex. destruct Hres as (m & i & -> & Hi). cbn.
        rewrite Hi. by eexists.
Qed.

Lemma split_operation_raises op e :
  split_operation op = Raise e ->
  renamed_from op <> None /\ ~ rename_resolves apps app_label op /\ is_not_found e.
Proof.
  intros He.
  assert (Hno : ~ exists r, split_operation op = Ok r).
  { intros [r Hr]. congruence. }
  rewrite split_operation_succeeds_iff in Hno.
  split; [tauto|]. split; [tauto|].
  destruct op; try discriminate He.
  - rewrite split_RenameModel in He. unfold get_model_safely in He.
    destruct (apps !! app_label) as [cfg|]; [|by injection He as <-].
    destruct (AppConfig.models cfg !! Str.lower new_name); [discriminate|].
    by injection He as <-.
  - rewrite split_RenameField in He. unfold get_model_safely in He.
    destruct (apps !! app_label) as [cfg|]; [|by injection He as <-].
    destruct (AppConfig.models cfg !! Str.lower model_name) as [m|];
      [|by injection He as <-].
    cbn in He. unfold get_field_by_name in He.
    destruct (filter _ _); [by injection He as <-|discriminate].
  - rewrite split_RenameIndex in He. unfold get_model_safely in He.
    destruct (apps !! app_label) as [cfg|]; [|by injection He as <-].
    destruct (AppConfig.models cfg !! Str.lower model_name) as [m|];
      [|by injection He as <-].
    cbn in He. unfold get_index_by_name in He.
    destruct (filter _ _); [by injection He as <-|discriminate].
Qed.

(** A list without renames is partitioned: the green list holds its
    delete/remove instructions and the blue list all the others, both in the
    original order, and the call does not raise. *)
Theorem rename_free_split_is_a_partition ops :
  Forall (fun o => renamed_from o = None) ops ->
  split_operations ops
  = Ok (filter (fun o => goes_green o = false) ops,
        filter (fun o => goes_green o = true) ops).
Proof.
  induction 1 as [|op ops Hop _ IH]; [reflexivity|].
  rewrite split_operations_cons, IH, !filter_cons.
  destruct (goes_green op) eqn:Hg.
  - rewrite (split_goes_green _ _ _ _ Hg). cbn.
    rewrite decide_False by done. by rewrite decide_True by done.
  - rewrite (split_goes_blue apps connection app_label op)
      by (by rewrite (not_rename_blue_or_green _ Hop), Hg).
    cbn. rewrite decide_True by done. by rewrite decide_False by done.
Qed.

(** Splitting distributes over concatenation: the result for [ops1 ++ ops2]
    is the result for [ops1] followed, phase by phase, by the result for
    [ops2], and an error of [ops1] takes precedence over one of [ops2]. *)
Theorem split_operations_concatenates ops1 ops2 :
  split_operations (ops1 ++ ops2) =
  match split_operations ops1, split_operations ops2 with
  | Ok (b1, g1), Ok (b2, g2) => Ok (b1 ++ b2, g1 ++ g2)
  | Ok _, Raise e => Raise e
  | Raise e, _ => Raise e
  end.
Proof.
  rewrite split_operations_app.
  destruct (split_operations ops1) as [[b1 g1]|e]; [|reflexivity].
  cbn. destruct (split_operations ops2) as [[b2 g2]|e]; reflexivity.
Qed.

(** [split_operations] succeeds exactly when every rename in the list finds
    its model (and new field or index) in the registry. *)
Theorem split_operations_succeeds_iff ops :
  (exists blue_ops green_ops, split_operations ops = Ok (blue_ops, green_ops)) <->
  Forall (fun o => renamed_from o = None \/ rename_resolves apps app_label o) ops.
Proof.
  induction ops as [|op ops IH].
  - split; [constructor|]. intros _. by exists [], [].
  - rewrite split_operations_cons, Forall_cons, <- IH, <- split_operation_succeeds_iff.
    split.
    + intros (b & g & H).
      destruct (split_operation op) as [[blue green]|e]; [|discriminate].
      cbn in H. destruct (split_operations ops) as [[b' g']|e]; [|discriminate].
      split; [by eexists|by eexists _, _].
    + intros [[[blue green] ->] (b & g & ->)]. cbn. by eexists _, _.
Qed.

Lemma split_operations_raise_inv ops e :
  split_operations ops = Raise e ->
  exists before op after,
    ops = before ++ op :: after /\
    (exists blue_ops green_ops, split_operations before = Ok (blue_ops, green_ops)) /\
    split_operation op = Raise e /\
    renamed_from op <> None /\
    ~ rename_resolves apps app_label op /\
    is_not_found e.
Proof.
  induction ops as [|op ops IH]; [discriminate|].
  rewrite split_operations_cons.
  destruct (split_operation op) as [[blue green]|e'] eqn:Hop.
  - cbn. destruct (split_operations ops) as [[b g]|e'] eqn:Hops; [discriminate|].
    intros [= ->]. destruct (IH eq_refl) as (before & op' & after & -> & Hb & Hraise).
    exists (op :: before), op', after. split; [reflexivity|]. split; [|exact Hraise].
    destruct Hb as (b & g & Hb). rewrite split_operations_cons, Hop. cbn.
    rewrite Hb. by eexists _, _.
  - cbn. intros [= ->]. exists [], op, ops. split; [reflexivity|].
    split; [by exists [], []|]. split; [exact Hop|].
    by apply split_operation_raises.
Qed.

(** When [split_operations] raises, the error is the not-found error of the
    first rename in the list whose model, field or index is missing;
    everything before that instruction splits without error. *)
Theorem split_operations_raises_first_failure ops e :
  split_operations ops = Raise e ->
  exists before op after,
    ops = before ++ op :: after /\
    (exists blue_ops green_ops, split_operations before = Ok (blue_ops, green_ops)) /\
    split_operation op = Raise e /\
    renamed_from op <> None /\
    ~ rename_resolves apps app_label op /\
    is_not_found e.
Proof. apply split_operations_raise_inv. Qed.

End splitter_extras.

(** ** The strategies and their order *)

Section dispatch.

Variable apps : gmap string AppConfig.t.
Variable connection : Connection.
Variable app_label : string.

Local Abbreviation splitter := (OperationSplitter.__init__ apps connection app_label).

Lemma handling_strategy_decides strategy op :
  strategy ∈ OperationSplitter.strategies splitter ->
  can_handle strategy op = true ->
  split strategy op app_label
  = OperationSplitter.first_strategy (OperationSplitter.strategies splitter) op app_label.
Proof.
  cbn. rewrite !elem_of_cons, elem_of_nil.
  intros [->|[->|[->|[->|[]]]]] H; destruct op; try discriminate H; reflexivity.
Qed.

Lemma nobody_handles op :
  Forall (fun strategy => can_handle strategy op = false)
    (OperationSplitter.strategies splitter) ->
  OperationSplitter.first_strategy (OperationSplitter.strategies splitter) op app_label
  = Ok ([Some op], [None]).
Proof.
  cbn. intros H.
  apply Forall_cons in H as [H1 H]. apply Forall_cons in H as [H2 H].
  apply Forall_cons in H as [H3 H]. apply Forall_cons in H as [H4 _].
  cbn in H1, H2, H3, H4. by rewrite H1, H2, H3, H4.
Qed.

Lemma first_strategy_of_sublist strategies op :
  (forall strategy, strategy ∈ strategies ->
                    strategy ∈ OperationSplitter.strategies splitter) ->
  OperationSplitter.first_strategy strategies op app_label
  = OperationSplitter.first_strategy (OperationSplitter.strategies splitter) op app_label
  \/ (Forall (fun strategy => can_handle strategy op = false) strategies /\
      OperationSplitter.first_strategy strategies op app_label = Ok ([Some op], [None])).
Proof.
  induction strategies as [|s l IH]; intros Hsub.
  - right. by split.
  - cbn [OperationSplitter.first_strategy].
    destruct (can_handle s op) eqn:Hs.
    + left. apply handling_strategy_decides; [|exact Hs]. apply Hsub, list_elem_of_here.
    + destruct IH as [IH|[Hall IH]].
      * intros s' Hs'. by apply Hsub, list_elem_of_further.
      * by left.
      * right. split; [by constructor|exact IH].
Qed.

(** At most one of the four strategies handles any given instruction, so the
    order in which they are registered does not matter: a splitter with the
    same strategies in any order splits every instruction the same way. *)
Theorem strategy_order_is_irrelevant strategies op :
  strategies ≡ₚ OperationSplitter.strategies splitter ->
  OperationSplitter.split_operation
    {| OperationSplitter.app_label := app_label;
       OperationSplitter.strategies := strategies |} op
  = OperationSplitter.split_operation splitter op.
Proof.
  intros Hperm. unfold OperationSplitter.split_operation.
  cbn [OperationSplitter.app_label OperationSplitter.strategies].
  destruct (is_impossible op); [reflexivity|].
  destruct (first_strategy_of_sublist strategies op) as [H|[Hall H]].
  - intros s Hs. by rewrite <- Hperm.
  - exact H.
  - rewrite H. symmetry. apply nobody_handles. by rewrite <- Hperm.
Qed.

End dispatch.

(** ** The writer of the [bluegreen] command *)

Section legacy_writer.

Variable apps : gmap string AppConfig.t.
Variable connection : Connection.

Lemma flatten_snoc phases p :
  PatchedMigrationWriter.flatten (phases ++ [p])
  = PatchedMigrationWriter.flatten phases ++ OperationSplitter.not_none p.
Proof.
  unfold PatchedMigrationWriter.flatten, OperationSplitter.not_none.
  by rewrite concat_app, omap_app, concat_cons, concat_nil, app_nil_r.
Qed.

Lemma split_loop_flattens self operations blue_list green_list :
  match PatchedMigrationWriter.split_loop apps connection self operations
          blue_list green_list,
        OperationSplitter.split_operations
          (OperationSplitter.__init__ apps connection
             (Migration.app_label (MigrationWriter.migration self))) operations with
  | Ok (blue_list', green_list'), Ok (blue_ops, green_ops) =>
      PatchedMigrationWriter.flatten blue_list'
      = PatchedMigrationWriter.flatten blue_list ++ blue_ops /\
      PatchedMigrationWriter.flatten green_list'
      = PatchedMigrationWriter.flatten green_list ++ green_ops
  | Raise e, Raise e' => e = e'
  | _, _ => False
  end.
Proof.
  revert blue_list green_list.
  induction operations as [|op ops IH]; intros blue_list green_list.
  - unfold OperationSplitter.split_operations. cbn. by rewrite !app_nil_r.
  - rewrite split_operations_cons. cbn [PatchedMigrationWriter.split_loop].
    unfold PatchedMigrationWriter.blue_green.
    destruct (OperationSplitter.split_operation _ op) as [[blue green]|e]; [|done].
    cbn. specialize (IH (blue_list ++ [blue]) (green_list ++ [green])).
    destruct (PatchedMigrationWriter.split_loop _ _ _ _ _ _) as [[bl gl]|e];
      destruct (OperationSplitter.split_operations _ ops) as [[b g]|e']; cbn; try done.
    destruct IH as [-> ->]. by rewrite !flatten_snoc, !app_assoc.
Qed.


(** With the flag as the command computes it (some instruction is of an
    impossible kind), the command's writer and the processor split a
    migration alike: both raise the impossible-operation error in the same
    cases, the writer's message listing the class names of the offending
    instructions; both raise the same not-found error; and when both
    succeed, the green migrations are equal and the blue migrations differ
    at most in their dependencies, which the writer copies from the source
    and the processor rewrites. The writer always asks for the header. *)
Theorem writer_and_processor_agree (MigrationLoader_init : Connection -> MigrationLoader.t)
    (is_file : string -> bool) processor writer (non_interactive : bool) :
  match
    PatchedMigrationWriter.split_migrations apps connection writer
      (existsb is_impossible (Migration.operations (MigrationWriter.migration writer)))
      non_interactive,
    (BlueGreenMigrationProcessor.process_migration apps connection MigrationLoader_init
       is_file processor (MigrationWriter.migration writer)).1
  with
  | Ok (blue, green), Ok (blue', green') =>
      MigrationWriter.migration green = MigrationWriter.migration green' /\
      Migration.name (MigrationWriter.migration blue)
      = Migration.name (MigrationWriter.migration blue') /\
      Migration.app_label (MigrationWriter.migration blue)
      = Migration.app_label (MigrationWriter.migration blue') /\
      Migration.operations (MigrationWriter.migration blue)
      = Migration.operations (MigrationWriter.migration blue') /\
      Migration.replaces (MigrationWriter.migration blue)
      = Migration.replaces (MigrationWriter.migration blue') /\
      Migration.run_before (MigrationWriter.migration blue)
      = Migration.run_before (MigrationWriter.migration blue') /\
      Migration.initial (MigrationWriter.migration blue)
      = Migration.initial (MigrationWriter.migration blue') /\
      Migration.dependencies (MigrationWriter.migration blue)
      = Migration.dependencies (MigrationWriter.migration writer) /\
      MigrationWriter.include_header blue = true /\
      MigrationWriter.include_header green = true
  | Raise (PatchedMigrationWriter.ImpossibleOperationError_message message),
    Raise (ImpossibleOperationError offending) =>
      offending <> [] /\
      message
      = "Cannot split migration into blue-green phases."
        +:+ PatchedMigrationWriter.newline +:+ PatchedMigrationWriter.newline
        +:+ "Detected operations that cannot be split: "
        +:+ Str.join ", " (map (fun op => class_name (type_of op)) offending)
        +:+ PatchedMigrationWriter.newline
        +:+ "These operations require downtime and must use standard Django migrations."
        +:+ PatchedMigrationWriter.newline +:+ PatchedMigrationWriter.newline
        +:+ "Solution: Use 'python manage.py makemigrations' instead of 'bluegreen' command."
  | Raise (PatchedMigrationWriter.Raised e), Raise e' => e = e'
  | _, _ => False
  end.
Proof.
  unfold PatchedMigrationWriter.split_migrations,
    BlueGreenMigrationProcessor.process_migration.
  destruct (existsb is_impossible (Migration.operations (MigrationWriter.migration writer)))
    eqn:Hex.
  - cbn [fst]. split.
    + apply existsb_exists in Hex as (op & Hin & Hop).
      unfold OperationSplitter.detect_impossible_operations. intros Hnil.
      assert (Hf : op ∈ filter (fun o => is_impossible o)
                          (Migration.operations (MigrationWriter.migration writer))).
      { apply list_elem_of_filter. split; [by apply Is_true_true|].
        by apply list_elem_of_In. }
      rewrite Hnil in Hf. inversion Hf.
    + unfold PatchedMigrationWriter.impossible_message,
        OperationSplitter.detect_impossible_operations.
      do 5 f_equal. f_equal. f_equal. apply list_filter_iff. intros op.
      unfold is_impossible. by rewrite bool_decide_spec.
  - pose proof (split_loop_flattens writer
                  (Migration.operations (MigrationWriter.migration writer)) [] []) as H.
    destruct (PatchedMigrationWriter.split_loop _ _ _ _ _ _) as [[blue_list green_list]|e];
      destruct (OperationSplitter.split_operations _ _) as [[blue_ops green_ops]|e'];
      try contradiction.
    + destruct (BlueGreenMigrationProcessor._fix_dependencies _ _ _ _ _ _ _ _)
        as [blue_deps self1].
      cbn in H. destruct H as [Hb Hg]. cbn.
      unfold PatchedMigrationWriter.create_green, PatchedMigrationWriter.create_blue.
      cbn. rewrite Hb, Hg. by repeat split.
    + exact H.
Qed.

End legacy_writer.

(** ** More on the migration processor *)

Section processor_extras.

Variable apps : gmap string AppConfig.t.
Variable connection : Connection.
Variable MigrationLoader_init : Connection -> MigrationLoader.t.
Variable is_file : string -> bool.

Local Abbreviation process_migration :=
  (BlueGreenMigrationProcessor.process_migration apps connection MigrationLoader_init is_file).
Local Abbreviation _fix_dependencies :=
  (BlueGreenMigrationProcessor._fix_dependencies apps connection MigrationLoader_init is_file).
Local Abbreviation _get_migration_loader :=
  (BlueGreenMigrationProcessor._get_migration_loader connection MigrationLoader_init).

Lemma get_migration_loader_again self (MigrationLoader_init' : Connection -> MigrationLoader.t) :
  BlueGreenMigrationProcessor._migration_loader (_get_migration_loader self).2
  = Some (_get_migration_loader self).1 /\
  BlueGreenMigrationProcessor._get_migration_loader connection MigrationLoader_init'
    (_get_migration_loader self).2
  = _get_migration_loader self.
Proof.
  unfold BlueGreenMigrationProcessor._get_migration_loader.
  destruct (BlueGreenMigrationProcessor._migration_loader self) as [loader|] eqn:E; cbn.
  - by rewrite E.
  - done.
Qed.

(** The loader is built at most once per processor: after a first call the
    processor holds the loader, and any later call returns that same loader
    and leaves the processor as it is, whatever a fresh load would give. *)
Theorem migration_loader_is_built_once self (MigrationLoader_init' : Connection -> MigrationLoader.t) :
  BlueGreenMigrationProcessor._migration_loader (_get_migration_loader self).2
  = Some (_get_migration_loader self).1 /\
  BlueGreenMigrationProcessor._get_migration_loader connection MigrationLoader_init'
    (_get_migration_loader self).2
  = _get_migration_loader self.
Proof. apply get_migration_loader_again. Qed.

Lemma fix_dependency_idempotent self self' loader (is_green : bool) dep :
  BlueGreenMigrationProcessor.fix_dependency apps is_file self' loader
    (if is_green then GREEN_SUFFIX else BLUE_SUFFIX)
    (BlueGreenMigrationProcessor.fix_dependency apps is_file self loader
       (if is_green then GREEN_SUFFIX else BLUE_SUFFIX) dep)
  = BlueGreenMigrationProcessor.fix_dependency apps is_file self loader
      (if is_green then GREEN_SUFFIX else BLUE_SUFFIX) dep.
Proof.
  destruct dep as [app_label migration_name|items]; [|reflexivity].
  unfold BlueGreenMigrationProcessor.fix_dependency at 2 3.
  destruct (Str.endswith2 migration_name BLUE_SUFFIX GREEN_SUFFIX) eqn:Hs.
  { cbn. by rewrite Hs. }
  cbv zeta.
  destruct (bool_decide _ || _) eqn:Hc.
  - cbn. unfold Str.endswith2.
    destruct is_green; rewrite endswith_append; [by rewrite orb_true_r|reflexivity].
  - cbn. rewrite Hs.
    unfold BlueGreenMigrationProcessor._migration_file_exists in *. by rewrite Hc.
Qed.

(** Rewriting dependencies a second time for the same colour changes
    nothing: the list and the processor stay as the first call left them. *)
Theorem fix_dependencies_is_idempotent self dependencies current_app_label
    current_app_label' (is_green : bool) :
  _fix_dependencies
    (_fix_dependencies self dependencies current_app_label is_green).2
    (_fix_dependencies self dependencies current_app_label is_green).1
    current_app_label' is_green
  = _fix_dependencies self dependencies current_app_label is_green.
Proof.
  unfold BlueGreenMigrationProcessor._fix_dependencies.
  pose proof (get_migration_loader_again self MigrationLoader_init) as [_ Hagain].
  destruct (_get_migration_loader self) as [loader self1]. cbn [fst snd] in *.
  rewrite Hagain. f_equal.
  rewrite map_map. apply map_ext. intros dep. apply fix_dependency_idempotent.
Qed.

(** [process_migration] raises the impossible-operation error exactly when
    [detect_impossible_operations] finds something, and then carries that
    list; when nothing is detected it never raises that error, and whatever
    it raises is a not-found error of a rename. *)
Theorem process_migration_error_kinds self migration :
  match process_migration self migration with
  | (Raise (ImpossibleOperationError offending), self') =>
      offending
      = OperationSplitter.detect_impossible_operations
          (OperationSplitter.__init__ apps connection (Migration.app_label migration))
          (Migration.operations migration) /\
      offending <> [] /\ self' = self
  | (Raise e, self') =>
      OperationSplitter.detect_impossible_operations
        (OperationSplitter.__init__ apps connection (Migration.app_label migration))
        (Migration.operations migration) = [] /\
      OperationSplitter.split_operations
        (OperationSplitter.__init__ apps connection (Migration.app_label migration))
        (Migration.operations migration) = Raise e /\
      self' = self
  | (Ok _, _) =>
      OperationSplitter.detect_impossible_operations
        (OperationSplitter.__init__ apps connection (Migration.app_label migration))
        (Migration.operations migration) = []
  end.
Proof.
  unfold BlueGreenMigrationProcessor.process_migration,
    OperationSplitter.detect_impossible_operations.
  destruct (existsb is_impossible (Migration.operations migration)) eqn:Hex.
  - repeat split.
    apply existsb_exists in Hex as (op & Hin & Hop).
    intros Hnil. apply list_elem_of_In in Hin.
    assert (Hf : op ∈ filter (fun o => is_impossible o) (Migration.operations migration)).
    { apply list_elem_of_filter. split; [by apply Is_true_true|exact Hin]. }
    rewrite Hnil in Hf. inversion Hf.
  - assert (Hnil : filter (fun o => is_impossible o) (Migration.operations migration) = []).
    { clear -Hex. induction (Migration.operations migration) as [|o l IH]; [reflexivity|].
      cbn in Hex. apply orb_false_iff in Hex as [Ho Hl].
      rewrite filter_cons, decide_False; [by apply IH|]. rewrite Ho. cbn. tauto. }
    destruct (OperationSplitter.split_operations _ _) as [[blue_ops green_ops]|e] eqn:Hs.
    + destruct (BlueGreenMigrationProcessor._fix_dependencies _ _ _ _ _ _ _ _)
        as [blue_deps self1]. exact Hnil.
    + apply split_operations_raise_inv in Hs as Hfirst.
      destruct Hfirst as (_ & _ & _ & _ & _ & _ & _ & _ & Hnf).
      destruct e; try contradiction; by repeat split.
Qed.

End processor_extras.

(** ** More on the plan filter *)

Lemma filter_idemp {A : Type} (P : A -> Prop) `{!forall x, Decision (P x)} (l : list A) :
  filter P (filter P l) = filter P l.
Proof.
  induction l as [|x l IH]; [reflexivity|].
  rewrite filter_cons. destruct (decide (P x)) as [Hx|Hx]; [|exact IH].
  by rewrite filter_cons, decide_True, IH.
Qed.

Lemma filter_comm {A : Type} (P Q : A -> Prop) `{!forall x, Decision (P x)}
    `{!forall x, Decision (Q x)} (l : list A) :
  filter P (filter Q l) = filter Q (filter P l).
Proof.
  induction l as [|x l IH]; [reflexivity|].
  rewrite !filter_cons.
  destruct (decide (Q x)) as [Hq|Hq], (decide (P x)) as [Hp|Hp];
    rewrite ?filter_cons, ?decide_True, ?decide_False by done; by rewrite ?IH.
Qed.

Lemma report_silent self n message :
  MigrationPlanFilter.report self n n message = self.
Proof.
  unfold MigrationPlanFilter.report.
  by rewrite Nat.eqb_refl, andb_false_r.
Qed.

(** Filtering a plan that has already been filtered by the same filter
    returns it unchanged and writes nothing to stdout. *)
Theorem filter_plan_is_idempotent self plan :
  MigrationPlanFilter.filter_plan
    (MigrationPlanFilter.filter_plan self plan).2
    (MigrationPlanFilter.filter_plan self plan).1
  = ((MigrationPlanFilter.filter_plan self plan).1,
     (MigrationPlanFilter.filter_plan self plan).2).
Proof.
  unfold MigrationPlanFilter.filter_plan.
  destruct (MigrationPlanFilter.blue_mode self) eqn:Hb;
    [|destruct (MigrationPlanFilter.green_mode self) eqn:Hg]; cbn [fst snd].
  - assert (Hb' : forall n m msg,
               MigrationPlanFilter.blue_mode (MigrationPlanFilter.report self n m msg) = true).
    { intros. unfold MigrationPlanFilter.report. by destruct (_ && _). }
    rewrite Hb', filter_idemp. f_equal. apply report_silent.
  - assert (Hb' : forall n m msg,
               MigrationPlanFilter.blue_mode (MigrationPlanFilter.report self n m msg) = false).
    { intros. unfold MigrationPlanFilter.report. by destruct (_ && _). }
    assert (Hg' : forall n m msg,
               MigrationPlanFilter.green_mode (MigrationPlanFilter.report self n m msg) = true).
    { intros. unfold MigrationPlanFilter.report. by destruct (_ && _). }
    rewrite Hb', Hg', filter_idemp. f_equal. apply report_silent.
  - by rewrite Hb, Hg.
Qed.

(** The filter never changes its own mode or verbosity, and writes at most
    one line to stdout per call: none when nothing was dropped, when there is
    no stream or when verbosity is 0, and otherwise one line that names the
    number of dropped migrations. *)
Theorem filter_plan_reports_dropped self plan :
  MigrationPlanFilter.blue_mode (MigrationPlanFilter.filter_plan self plan).2
  = MigrationPlanFilter.blue_mode self /\
  MigrationPlanFilter.green_mode (MigrationPlanFilter.filter_plan self plan).2
  = MigrationPlanFilter.green_mode self /\
  MigrationPlanFilter.verbosity (MigrationPlanFilter.filter_plan self plan).2
  = MigrationPlanFilter.verbosity self /\
  length (MigrationPlanFilter.filter_plan self plan).1 <= length plan /\
  match MigrationPlanFilter.stdout self with
  | None => MigrationPlanFilter.stdout (MigrationPlanFilter.filter_plan self plan).2 = None
  | Some stream =>
      if bool_decide (length (MigrationPlanFilter.filter_plan self plan).1 = length plan)
         || bool_decide (MigrationPlanFilter.verbosity self = 0)
      then MigrationPlanFilter.stdout (MigrationPlanFilter.filter_plan self plan).2
           = Some stream
      else exists kind,
          MigrationPlanFilter.stdout (MigrationPlanFilter.filter_plan self plan).2
          = Some (stream ++
                  [ kind +:+ " deployment mode: skipping "
                    +:+ Str.of_nat (length plan
                                    - length (MigrationPlanFilter.filter_plan self plan).1)
                    +:+ (if MigrationPlanFilter.blue_mode self
                         then " green migration(s)" else " blue migration(s)")
                    +:+ String (ascii_of_nat 10) EmptyString ])
  end.
Proof.
  assert (Hrep : forall n m msg,
    MigrationPlanFilter.blue_mode (MigrationPlanFilter.report self n m msg)
    = MigrationPlanFilter.blue_mode self /\
    MigrationPlanFilter.green_mode (MigrationPlanFilter.report self n m msg)
    = MigrationPlanFilter.green_mode self /\
    MigrationPlanFilter.verbosity (MigrationPlanFilter.report self n m msg)
    = MigrationPlanFilter.verbosity self /\
    match MigrationPlanFilter.stdout self with
    | None => MigrationPlanFilter.stdout (MigrationPlanFilter.report self n m msg) = None
    | Some stream =>
        if bool_decide (m = n) || bool_decide (MigrationPlanFilter.verbosity self = 0)
        then MigrationPlanFilter.stdout (MigrationPlanFilter.report self n m msg)
             = Some stream
        else MigrationPlanFilter.stdout (MigrationPlanFilter.report self n m msg)
             = Some (stream ++ [msg (n - m)])
    end).
  { intros n m msg. unfold MigrationPlanFilter.report.
    destruct (MigrationPlanFilter.stdout self) as [stream|] eqn:Hout.
    - rewrite (bool_decide_eq_true_2 (is_Some (Some stream))), andb_true_r
        by (by eexists).
      destruct (MigrationPlanFilter.verbosity self) as [|v] eqn:Hv.
      + cbn. rewrite Hout, orb_true_r. by repeat split.
      + rewrite (bool_decide_eq_false_2 (S v = 0)), orb_false_r by done.
        cbn [Nat.leb andb].
        destruct (Nat.eqb n m) eqn:Hnm.
        * apply Nat.eqb_eq in Hnm as ->. cbn. rewrite Hout.
          rewrite bool_decide_eq_true_2 by done. by repeat split.
        * apply Nat.eqb_neq in Hnm. cbn. rewrite Hout.
          rewrite bool_decide_eq_false_2 by (by intros ->). by repeat split.
    - rewrite (bool_decide_eq_false_2 (is_Some None)), andb_false_r
        by (by intros [? ?]).
      by rewrite Hout. }
  unfold MigrationPlanFilter.filter_plan.
  destruct (MigrationPlanFilter.blue_mode self) eqn:Hb;
    [|destruct (MigrationPlanFilter.green_mode self) eqn:Hg]; cbn [fst snd].
  - destruct (Hrep (length plan)
                (length (filter (fun item : MigrationPlanFilter.plan_item =>
                                   negb (Str.endswith (Migration.name item.1) "_green")) plan))
                (fun filtered_count =>
                   "Blue deployment mode: skipping " +:+ Str.of_nat filtered_count
                   +:+ " green migration(s)" +:+ String (ascii_of_nat 10) EmptyString))
      as (H1 & H2 & H3 & H4).
    rewrite H1, H2, H3. repeat split; try done; [apply length_filter|].
    destruct (MigrationPlanFilter.stdout self); [|exact H4].
    destruct (_ || _); [exact H4|]. by exists "Blue".
  - destruct (Hrep (length plan)
                (length (filter (fun item : MigrationPlanFilter.plan_item =>
                                   negb (Str.endswith (Migration.name item.1) "_blue")) plan))
                (fun filtered_count =>
                   "Green deployment mode: skipping " +:+ Str.of_nat filtered_count
                   +:+ " blue migration(s)" +:+ String (ascii_of_nat 10) EmptyString))
      as (H1 & H2 & H3 & H4).
    rewrite H1, H2, H3. repeat split; try done; [apply length_filter|].
    destruct (MigrationPlanFilter.stdout self); [|exact H4].
    destruct (_ || _); [exact H4|]. by exists "Green".
  - rewrite ?Hb, ?Hg. repeat split; try done.
    destruct (MigrationPlanFilter.stdout self); [|done].
    by rewrite bool_decide_eq_true_2 by done.
Qed.

(** In blue mode followed by green mode, in either order, the plan keeps
    exactly the migrations whose name carries neither suffix. *)
Theorem both_modes_keep_only_vanilla blue_filter green_filter plan :
  mode_of blue_filter = BlueOnly ->
  mode_of green_filter = GreenOnly ->
  (MigrationPlanFilter.filter_plan green_filter
     (MigrationPlanFilter.filter_plan blue_filter plan).1).1
  = (MigrationPlanFilter.filter_plan blue_filter
       (MigrationPlanFilter.filter_plan green_filter plan).1).1 /\
  selects
    (fun item =>
       Str.endswith (Migration.name item.1) BLUE_SUFFIX = false /\
       Str.endswith (Migration.name item.1) GREEN_SUFFIX = false)
    plan
    (MigrationPlanFilter.filter_plan green_filter
       (MigrationPlanFilter.filter_plan blue_filter plan).1).1.
Proof.
  unfold mode_of, MigrationPlanFilter.filter_plan. intros Hb Hg.
  destruct (MigrationPlanFilter.blue_mode blue_filter);
    [|destruct (MigrationPlanFilter.green_mode blue_filter); discriminate].
  destruct (MigrationPlanFilter.blue_mode green_filter); [discriminate|].
  destruct (MigrationPlanFilter.green_mode green_filter); [|discriminate].
  cbn [fst]. split.
  - induction plan as [|item plan IH]; [reflexivity|].
    rewrite !filter_cons.
    destruct (decide (negb (Str.endswith (Migration.name item.1) "_green"))),
             (decide (negb (Str.endswith (Migration.name item.1) "_blue")));
      rewrite ?filter_cons, ?decide_True, ?decide_False by done; by rewrite ?IH.
  - induction plan as [|item plan IH]; [constructor|].
    rewrite filter_cons.
    destruct (Str.endswith (Migration.name item.1) "_green") eqn:Egreen.
    + rewrite decide_False by (cbn; tauto).
      apply selects_drop; [|exact IH]. unfold GREEN_SUFFIX. rewrite Egreen. by intros [_ ?].
    + rewrite decide_True by done. rewrite filter_cons.
      destruct (Str.endswith (Migration.name item.1) "_blue") eqn:Eblue.
      * rewrite decide_False by (cbn; tauto).
        apply selects_drop; [|exact IH]. unfold BLUE_SUFFIX. rewrite Eblue. by intros [? _].
      * rewrite decide_True by done.
        apply selects_keep; [|exact IH]. by split.
Qed.

Section pipeline.

Variable apps : gmap string AppConfig.t.
Variable connection : Connection.
Variable MigrationLoader_init : Connection -> MigrationLoader.t.
Variable is_file : string -> bool.

Local Abbreviation process_migration :=
  (BlueGreenMigrationProcessor.process_migration apps connection MigrationLoader_init is_file).

Lemma process_migration_names self migration blue_writer green_writer self' :
  process_migration self migration = (Ok (blue_writer, green_writer), self') ->
  Migration.name (MigrationWriter.migration blue_writer)
  = Migration.name migration +:+ BLUE_SUFFIX /\
  Migration.name (MigrationWriter.migration green_writer)
  = Migration.name migration +:+ GREEN_SUFFIX.
Proof.
  unfold BlueGreenMigrationProcessor.process_migration. intros H.
  destruct (existsb is_impossible (Migration.operations migration)); [discriminate|].
  destruct (OperationSplitter.split_operations _ _) as [[b g]|e]; [|discriminate].
  destruct (BlueGreenMigrationProcessor._fix_dependencies _ _ _ _ _ _ _ _) as [deps self1].
  by injection H as <- <- <-.
Qed.

(** The pair made by [process_migration] is what the plan filter tells
    apart: of the blue and the green migration, blue mode keeps only the
    blue one, green mode only the green one, and unrestricted mode both. *)
Theorem processed_pair_is_separated_by_mode self migration blue_writer green_writer
    self' plan_filter (backwards : bool) :
  process_migration self migration = (Ok (blue_writer, green_writer), self') ->
  (MigrationPlanFilter.filter_plan plan_filter
     [ (MigrationWriter.migration blue_writer, backwards);
       (MigrationWriter.migration green_writer, backwards) ]).1
  = match mode_of plan_filter with
    | BlueOnly => [ (MigrationWriter.migration blue_writer, backwards) ]
    | GreenOnly => [ (MigrationWriter.migration green_writer, backwards) ]
    | Unrestricted =>
        [ (MigrationWriter.migration blue_writer, backwards);
          (MigrationWriter.migration green_writer, backwards) ]
    end.
Proof.
  intros H. destruct (process_migration_names _ _ _ _ _ H) as [Hb Hg].
  unfold mode_of, MigrationPlanFilter.filter_plan.
  destruct (MigrationPlanFilter.blue_mode plan_filter);
    [|destruct (MigrationPlanFilter.green_mode plan_filter)]; cbn [fst]; [| |reflexivity].
  - rewrite !filter_cons, filter_nil. cbn [fst].
    rewrite Hb, Hg, blue_name_not_green.
    change "_green" with GREEN_SUFFIX. by rewrite endswith_append.
  - rewrite !filter_cons, filter_nil. cbn [fst].
    rewrite Hb, Hg, green_name_not_blue.
    change "_blue" with BLUE_SUFFIX. by rewrite endswith_append.
Qed.

End pipeline.

(** ** The patched operations and the [migrate] command *)

(** Rebuilding an [AddFieldPatched] from its deconstructed form gives back
    the same model name, field name, field and old name, but always with
    [preserve_default] false: [deconstruct] leaves the keyword out when it
    is true and the constructor then defaults it to false. The round trip
    is exact only for operations built with [preserve_default] false. *)
Theorem AddFieldPatched_deconstruct_loses_preserve_default
    model_name name field old_name preserve_default :
  AddFieldPatched_call
    (AddFieldPatched_deconstruct model_name name field old_name preserve_default).2
  = Some (AddFieldPatched model_name name field old_name false) /\
  (AddFieldPatched_deconstruct model_name name field old_name preserve_default).1
  = ("AddFieldPatched", []) /\
  (kwarg (AddFieldPatched_deconstruct model_name name field old_name preserve_default).2
     "old_name" = Some (VString old_name)) /\
  (AddFieldPatched_call
     (AddFieldPatched_deconstruct model_name name field old_name preserve_default).2
   = Some (AddFieldPatched model_name name field old_name preserve_default)
   <-> preserve_default = false).
Proof.
  destruct preserve_default; cbn; repeat split; try done.
Qed.

Section migrate_command.

Variable apps : gmap string AppConfig.t.
Variable connection : Connection.
Variable app_label : string.

Local Abbreviation splitter := (OperationSplitter.__init__ apps connection app_label).

(** For a rename-field whose model uses the default table name, the UPDATE
    that the migrate command executes after applying the blue migration is
    the very statement of the [RunSQL] instruction the split has put into
    that migration: the column copy is issued by both. *)
Theorem migrate_repeats_the_field_copy model_name old_name new_name model field :
  get_model_safely apps app_label model_name = Ok model ->
  get_field_by_name model new_name = Ok field ->
  Model.db_table model = app_label +:+ "_" +:+ Str.lower (Model.__name__ model) ->
  exists blue_ops green_ops,
    OperationSplitter.split_operations splitter
      [RenameField model_name old_name new_name] = Ok (blue_ops, green_ops) /\
    forall migration (backwards : bool),
      Migration.app_label migration = app_label ->
      Migration.operations migration = blue_ops ->
      MigrateCommand.copy_renamed_fields connection [(migration, backwards)]
      = map sql_of (filter (fun o => is_data_copy o) blue_ops) /\
      length (MigrateCommand.copy_renamed_fields connection [(migration, backwards)]) = 1.
Proof.
  intros Hm Hf Htable.
  rewrite split_operations_cons, split_RenameField, Hm. cbn. rewrite Hf. cbn.
  eexists _, _. split; [reflexivity|].
  intros migration backwards Happ Hops.
  unfold MigrateCommand.copy_renamed_fields. cbn. rewrite Hops. cbn.
  split; [|reflexivity].
  unfold MigrateCommand.copy_statement, SQLBuilder.build_update_field_copy,
    quote_identifier.
  rewrite Happ, Htable, !append_assoc. reflexivity.
Qed.

End migrate_command.

(** ** The further properties on concrete inputs *)

Lemma get_common_columns_depends_on_column_sets_witness :
  SQLValidator.get_common_columns customer legacy_client
  = SQLValidator.get_common_columns
      (Model.mk "Customer" "shop" "shop_customer"
         [ Field.mk "email" "email" "EmailField"; Field.mk "id" "id" "BigAutoField";
           Field.mk "pk" "id" "BigAutoField" ] [])
      legacy_client /\
  SQLValidator.get_common_columns customer legacy_client
  = SQLValidator.get_common_columns legacy_client customer.
Proof.
  apply (get_common_columns_depends_on_column_sets customer legacy_client
           (Model.mk "Customer" "shop" "shop_customer"
              [ Field.mk "email" "email" "EmailField"; Field.mk "id" "id" "BigAutoField";
                Field.mk "pk" "id" "BigAutoField" ] [])
           legacy_client).
  - intros c. cbn. rewrite !elem_of_cons, !elem_of_nil. tauto.
  - intros c. reflexivity.
Defined.

Lemma compatible_schemas_are_safe_witness :
  (SQLValidator.validate_schema_compatibility
     (SQLValidator.get_column_order customer)
     (SQLValidator.get_column_order
        (Model.mk "Account" "shop" "shop_account"
           [ Field.mk "id" "id" "BigAutoField"; Field.mk "email" "email" "EmailField";
             Field.mk "phone" "phone" "CharField" ] []))
     false).1 = true /\
  SQLValidator.check_safe_for_insert_select customer
    (Model.mk "Account" "shop" "shop_account"
       [ Field.mk "id" "id" "BigAutoField"; Field.mk "email" "email" "EmailField";
         Field.mk "phone" "phone" "CharField" ] [])
  = Ok tt.
Proof.
  assert (H : (SQLValidator.validate_schema_compatibility
     (SQLValidator.get_column_order customer)
     (SQLValidator.get_column_order
        (Model.mk "Account" "shop" "shop_account"
           [ Field.mk "id" "id" "BigAutoField"; Field.mk "email" "email" "EmailField";
             Field.mk "phone" "phone" "CharField" ] []))
     false).1 = true) by (vm_compute; reflexivity).
  split; [exact H|].
  apply (compatible_schemas_are_safe customer _ false H). discriminate.
Defined.

Lemma quoted_column_list_is_quoted_witness :
  delimiter_ok backtick = true /\
  delimits backtick mysql /\
  outside_quotes backtick false
    (SQLBuilder.build_quoted_column_list mysql ["order"; "first name"; "x-1"])
  = ", , ".
Proof.
  assert (Hd : delimiter_ok backtick = true) by reflexivity.
  assert (Hq : delimits backtick mysql) by (intros identifier _; reflexivity).
  split; [exact Hd|]. split; [exact Hq|].
  apply (quoted_column_list_is_quoted backtick mysql ["order"; "first name"; "x-1"] Hd Hq).
  repeat constructor.
Defined.

Lemma rename_free_split_is_a_partition_witness :
  OperationSplitter.split_operations (OperationSplitter.__init__ shop_apps mysql "shop")
    [ DeleteModel "Basket"; CreateModel "Order" [];
      RemoveField "customer" "fax"; RunSQL "SELECT 1" RunSQL_noop ]
  = Ok ([ CreateModel "Order" []; RunSQL "SELECT 1" RunSQL_noop ],
        [ DeleteModel "Basket"; RemoveField "customer" "fax" ]).
Proof.
  apply (rename_free_split_is_a_partition shop_apps mysql "shop"
           [ DeleteModel "Basket"; CreateModel "Order" [];
             RemoveField "customer" "fax"; RunSQL "SELECT 1" RunSQL_noop ]).
  repeat constructor.
Defined.

Lemma split_operations_raises_first_failure_witness :
  OperationSplitter.split_operations (OperationSplitter.__init__ shop_apps mysql "shop")
    [ DeleteModel "Basket"; RenameField "customer" "mail" "e_mail";
      RenameModel "Client" "Missing" ]
  = Raise (FieldNotFoundError "Field 'e_mail' not found in model 'Customer'") /\
  exists before op after,
    [ DeleteModel "Basket"; RenameField "customer" "mail" "e_mail";
      RenameModel "Client" "Missing" ] = before ++ op :: after /\
    (exists blue_ops green_ops,
        OperationSplitter.split_operations
          (OperationSplitter.__init__ shop_apps mysql "shop") before
        = Ok (blue_ops, green_ops)) /\
    OperationSplitter.split_operation (OperationSplitter.__init__ shop_apps mysql "shop") op
    = Raise (FieldNotFoundError "Field 'e_mail' not found in model 'Customer'") /\
    renamed_from op <> None /\
    ~ rename_resolves shop_apps "shop" op /\
    is_not_found (FieldNotFoundError "Field 'e_mail' not found in model 'Customer'").
Proof.
  assert (H : OperationSplitter.split_operations
                (OperationSplitter.__init__ shop_apps mysql "shop")
                [ DeleteModel "Basket"; RenameField "customer" "mail" "e_mail";
                  RenameModel "Client" "Missing" ]
              = Raise (FieldNotFoundError "Field 'e_mail' not found in model 'Customer'"))
    by (vm_compute; reflexivity).
  split; [exact H|].
  exact (split_operations_raises_first_failure shop_apps mysql "shop" _ _ H).
Defined.

Lemma strategy_order_is_irrelevant_witness :
  OperationSplitter.split_operation
    {| OperationSplitter.app_label := "shop";
       OperationSplitter.strategies :=
         [ ConstraintStrategy; IndexStrategy shop_apps;
           FieldStrategy shop_apps mysql; ModelStrategy shop_apps mysql ] |}
    (RenameField "customer" "mail" "email")
  = OperationSplitter.split_operation (OperationSplitter.__init__ shop_apps mysql "shop")
      (RenameField "customer" "mail" "email").
Proof.
  apply (strategy_order_is_irrelevant shop_apps mysql "shop").
  exact (Permutation_rev [ ConstraintStrategy; IndexStrategy shop_apps;
                           FieldStrategy shop_apps mysql; ModelStrategy shop_apps mysql ]).
Defined.

Lemma processed_pair_is_separated_by_mode_witness :
  exists blue_writer green_writer self',
    BlueGreenMigrationProcessor.process_migration shop_apps mysql empty_graph
      foo_blue_on_disk test_processor migration_0006
    = (Ok (blue_writer, green_writer), self') /\
    Migration.name (MigrationWriter.migration blue_writer) = "0006_bar_blue" /\
    Migration.name (MigrationWriter.migration green_writer) = "0006_bar_green" /\
    (MigrationPlanFilter.filter_plan
       {| MigrationPlanFilter.blue_mode := false;
          MigrationPlanFilter.green_mode := true;
          MigrationPlanFilter.verbosity := 1;
          MigrationPlanFilter.stdout := None |}
       [ (MigrationWriter.migration blue_writer, false);
         (MigrationWriter.migration green_writer, false) ]).1
    = [ (MigrationWriter.migration green_writer, false) ].
Proof.
  eexists _, _, _.
  assert (H : forall r, r = BlueGreenMigrationProcessor.process_migration shop_apps mysql
                empty_graph foo_blue_on_disk test_processor migration_0006 ->
              BlueGreenMigrationProcessor.process_migration shop_apps mysql
                empty_graph foo_blue_on_disk test_processor migration_0006 = r)
    by (intros r ->; reflexivity).
  split; [apply H; vm_compute; reflexivity|].
  split; [reflexivity|]. split; [reflexivity|].
  exact (processed_pair_is_separated_by_mode shop_apps mysql empty_graph foo_blue_on_disk
           test_processor migration_0006 _ _ _
           {| MigrationPlanFilter.blue_mode := false;
              MigrationPlanFilter.green_mode := true;
              MigrationPlanFilter.verbosity := 1;
              MigrationPlanFilter.stdout := None |} false eq_refl).
Defined.

Lemma both_modes_keep_only_vanilla_witness :
  (MigrationPlanFilter.filter_plan
     {| MigrationPlanFilter.blue_mode := false;
        MigrationPlanFilter.green_mode := true;
        MigrationPlanFilter.verbosity := 0;
        MigrationPlanFilter.stdout := None |}
     (MigrationPlanFilter.filter_plan
        {| MigrationPlanFilter.blue_mode := true;
           MigrationPlanFilter.green_mode := false;
           MigrationPlanFilter.verbosity := 0;
           MigrationPlanFilter.stdout := None |}
        [ plan_item_named "0001_initial_blue"; plan_item_named "0001_initial_green";
          plan_item_named "0002_add_field" ]).1).1
  = [ plan_item_named "0002_add_field" ] /\
  selects
    (fun item =>
       Str.endswith (Migration.name item.1) BLUE_SUFFIX = false /\
       Str.endswith (Migration.name item.1) GREEN_SUFFIX = false)
    [ plan_item_named "0001_initial_blue"; plan_item_named "0001_initial_green";
      plan_item_named "0002_add_field" ]
    [ plan_item_named "0002_add_field" ].
Proof.
  split; [reflexivity|].
  exact (proj2 (both_modes_keep_only_vanilla
                  {| MigrationPlanFilter.blue_mode := true;
                     MigrationPlanFilter.green_mode := false;
                     MigrationPlanFilter.verbosity := 0;
                     MigrationPlanFilter.stdout := None |}
                  {| MigrationPlanFilter.blue_mode := false;
                     MigrationPlanFilter.green_mode := true;
                     MigrationPlanFilter.verbosity := 0;
                     MigrationPlanFilter.stdout := None |}
                  [ plan_item_named "0001_initial_blue";
                    plan_item_named "0001_initial_green";
                    plan_item_named "0002_add_field" ] eq_refl eq_refl)).
Defined.

Lemma migrate_repeats_the_field_copy_witness :
  get_model_safely shop_apps "shop" "customer" = Ok customer /\
  Model.db_table customer = "shop" +:+ "_" +:+ Str.lower (Model.__name__ customer) /\
  exists blue_ops green_ops,
    OperationSplitter.split_operations (OperationSplitter.__init__ shop_apps mysql "shop")
      [RenameField "customer" "mail" "email"] = Ok (blue_ops, green_ops) /\
    forall migration (backwards : bool),
      Migration.app_label migration = "shop" ->
      Migration.operations migration = blue_ops ->
      MigrateCommand.copy_renamed_fields mysql [(migration, backwards)]
      = map sql_of (filter (fun o => is_data_copy o) blue_ops) /\
      length (MigrateCommand.copy_renamed_fields mysql [(migration, backwards)]) = 1.
Proof.
  split; [reflexivity|]. split; [reflexivity|].
  exact (migrate_repeats_the_field_copy shop_apps mysql "shop" "customer" "mail" "email"
           customer (Field.mk "email" "email" "EmailField") eq_refl eq_refl eq_refl).
Defined.

(** The statement both the blue migration and the migrate command issue for
    the rename of [mail] to [email]. *)
Example migrate_copy_statement :
  MigrateCommand.copy_renamed_fields mysql
    [ ({| Migration.name := "0008_rename_blue";
          Migration.app_label := "shop";
          Migration.dependencies := [];
          Migration.operations :=
            [ AddFieldPatched "customer" "email" (Field.mk "email" "email" "EmailField")
                "mail" true;
              RunSQL "UPDATE `shop_customer` SET `email` = `mail`" RunSQL_noop ];
          Migration.replaces := [];
          Migration.run_before := [];
          Migration.initial := None |}, false) ]
  = [ "UPDATE `shop_customer` SET `email` = `mail`" ].
Proof. reflexivity. Qed.
